(** * MuseQuill.ink newsletter service: subscriber store, analytics, signup

    A shallow embedding of [newsletter_service.py]: the SQLite tables as
    lists of rows in rowid order, a connection as a committed and a working
    copy of the database, Python exceptions as a sum type, and the platform
    calls whose results the code does not control (the clock, [uuid.uuid4])
    as explicit arguments. *)

From Stdlib Require Import ZArith NArith List String Ascii Bool Lia.
From Stdlib Require Import Permutation Sorted.
Import ListNotations.

Open Scope string_scope.
Open Scope list_scope.
Open Scope Z_scope.

(** ** Python values used as conditions *)

(** [if x:] on a value read from a TEXT column or passed as [Optional[str]]:
    [None] and the empty string are false. *)
Definition truthy (x : option string) : bool :=
  match x with
  | None => false
  | Some s => negb (s =? "")%string
  end.

(** [needle in haystack] on Python strings. *)
Fixpoint str_contains (needle haystack : string) : bool :=
  String.prefix needle haystack ||
  match haystack with
  | EmptyString => false
  | String _ rest => str_contains needle rest
  end.

(** ** datetime, timedelta and isoformat *)

Module Time.

(** An aware UTC [datetime]: microseconds elapsed since
    0001-01-01T00:00:00+00:00 (the instant of proleptic ordinal day 1). *)
Definition datetime := Z.

Definition US_PER_SECOND : Z := 1000000.
Definition US_PER_DAY : Z := 86400 * 1000000.

(** [datetime.MAXYEAR] is 9999: ordinals 1 .. 3652059. *)
Definition MAX_ORDINAL : Z := 3652059.

Definition in_range (t : datetime) : bool :=
  (0 <=? t) && (t <? MAX_ORDINAL * US_PER_DAY).

(** A [timedelta] is kept normalised by Python: [0 <= seconds < 86400] and
    [0 <= microseconds < 1000000]; only [days] carries the sign. *)
Record timedelta := mk_timedelta {
  td_days : Z;
  td_seconds : Z;
  td_microseconds : Z
}.

(** [a - b] on two aware datetimes. *)
Definition datetime_sub (a b : datetime) : timedelta :=
  let us := a - b in
  {| td_days := us / US_PER_DAY;
     td_seconds := (us mod US_PER_DAY) / US_PER_SECOND;
     td_microseconds := us mod US_PER_SECOND |}.

(** [int(td.total_seconds())]: the quotient of the exact microsecond count by
    10^6, truncated toward zero. [total_seconds] is a correctly rounded float
    division, which cannot change the sign and is exact on whole seconds. *)
Definition int_total_seconds (td : timedelta) : Z :=
  Z.quot ((td_days td * 86400 + td_seconds td) * US_PER_SECOND
          + td_microseconds td) US_PER_SECOND.

(** [dt - timedelta(days=n)]: [OverflowError] (here [None]) when the result
    leaves the years 1 .. 9999. *)
Definition sub_days (dt : datetime) (n : Z) : option datetime :=
  let r := dt - n * US_PER_DAY in
  if in_range r then Some r else None.

(** *** The proleptic Gregorian calendar of the [datetime] module *)

Definition is_leap (year : Z) : bool :=
  (year mod 4 =? 0) && (negb (year mod 100 =? 0) || (year mod 400 =? 0)).

Definition days_before_year (year : Z) : Z :=
  let y := year - 1 in y * 365 + y / 4 - y / 100 + y / 400.

Definition DAYS_IN_MONTH : list Z :=
  [31; 28; 31; 30; 31; 30; 31; 31; 30; 31; 30; 31].

Definition DAYS_BEFORE_MONTH : list Z :=
  [0; 31; 59; 90; 120; 151; 181; 212; 243; 273; 304; 334].

Definition month_entry (table : list Z) (month : Z) : Z :=
  nth (Z.to_nat (month - 1)) table 0.

Definition days_before_month (year month : Z) : Z :=
  month_entry DAYS_BEFORE_MONTH month
  + (if (2 <? month) && is_leap year then 1 else 0).

Definition ymd2ord (year month day : Z) : Z :=
  days_before_year year + days_before_month year month + day.

Definition DI400Y : Z := 146097.
Definition DI100Y : Z := 36524.
Definition DI4Y : Z := 1461.

Definition ord2ymd (ordinal : Z) : Z * Z * Z :=
  let n := ordinal - 1 in
  let n400 := n / DI400Y in
  let n := n mod DI400Y in
  let year := n400 * 400 + 1 in
  let n100 := n / DI100Y in
  let n := n mod DI100Y in
  let n4 := n / DI4Y in
  let n := n mod DI4Y in
  let n1 := n / 365 in
  let n := n mod 365 in
  let year := year + n100 * 100 + n4 * 4 + n1 in
  if (n1 =? 4) || (n100 =? 4) then (year - 1, 12, 31)
  else
    let leapyear := (n1 =? 3) && (negb (n4 =? 24) || (n100 =? 3)) in
    let month := Z.shiftr (n + 50) 5 in
    let preceding :=
      month_entry DAYS_BEFORE_MONTH month
      + (if (2 <? month) && leapyear then 1 else 0) in
    if n <? preceding then
      let month := month - 1 in
      let preceding :=
        preceding - (month_entry DAYS_IN_MONTH month
                     + (if (month =? 2) && leapyear then 1 else 0)) in
      (year, month, n - preceding + 1)
    else (year, month, n - preceding + 1).

(** The datetime with the given UTC fields. *)
Definition make_datetime (year month day hour minute second us : Z)
  : datetime :=
  (ymd2ord year month day - 1) * US_PER_DAY
  + ((hour * 60 + minute) * 60 + second) * US_PER_SECOND + us.

(** *** isoformat *)

Definition digit (d : Z) : ascii := ascii_of_N (48 + Z.to_N d).

(** [n] in decimal on exactly [width] digits ("%0<width>d" for
    [0 <= n < 10^width]). *)
Fixpoint zpad (width : nat) (n : Z) : string :=
  match width with
  | O => ""
  | S w => String (digit (n / 10 ^ Z.of_nat w)) (zpad w (n mod 10 ^ Z.of_nat w))
  end.

(** "%04d-%02d-%02d" % (year, month, day) *)
Definition format_date (year month day : Z) : string :=
  (zpad 4 year ++ "-" ++ zpad 2 month ++ "-" ++ zpad 2 day)%string.

(** [_format_time(hh, mm, ss, us)] with the default [timespec='auto']: the
    microseconds are printed only when they are not zero. *)
Definition format_time (hh mm ss us : Z) : string :=
  (zpad 2 hh ++ ":" ++ zpad 2 mm ++ ":" ++ zpad 2 ss
   ++ (if (us =? 0)%Z then "" else "." ++ zpad 6 us))%string.

(** [dt.isoformat()] for an aware UTC datetime:
    YYYY-MM-DDTHH:MM:SS[.ffffff]+00:00. *)
Definition isoformat (dt : datetime) : string :=
  let '(y, m, d) := ord2ymd (dt / US_PER_DAY + 1) in
  let sod := (dt mod US_PER_DAY) / US_PER_SECOND in
  let us := dt mod US_PER_SECOND in
  (format_date y m d ++ "T"
   ++ format_time (sod / 3600) (sod mod 3600 / 60) (sod mod 60) us
   ++ "+00:00")%string.

End Time.

(** ** uuid *)

Module Uuid.

Definition hex_digit (d : N) : ascii :=
  if (d <? 10)%N then ascii_of_N (48 + d) else ascii_of_N (87 + d).

(** The low [width] hexadecimal digits of [n], most significant first. *)
Fixpoint hex (width : nat) (n : N) (acc : string) : string :=
  match width with
  | O => acc
  | S w => hex w (n / 16)%N (String (hex_digit (n mod 16)%N) acc)
  end.

(** [str(u)] for a [uuid.UUID] holding the 128-bit integer [u]:
    8-4-4-4-12 lower-case hexadecimal digits. *)
Definition str (u : N) : string :=
  hex 8 (N.shiftr u 96)
    (String "-" (hex 4 (N.shiftr u 80)
      (String "-" (hex 4 (N.shiftr u 64)
        (String "-" (hex 4 (N.shiftr u 48)
          (String "-" (hex 12 u ""))))))))%string.

End Uuid.

(** ** Data model *)

(** A JSON document; the TEXT columns [interests], [metadata] and
    [event_data] hold its [json.dumps] serialisation. *)
#[warnings="-register-all"]
Inductive json :=
| JNull
| JStr (s : string)
| JArr (items : list json)
| JObj (members : list (string * json)).

Definition json_of_optional (x : option string) : json :=
  match x with
  | None => JNull
  | Some s => JStr s
  end.

(** The pydantic model [NewsletterSignup]. *)
Module NewsletterSignup.
Record t := mk {
  email : string;
  name : option string;
  source : string;
  campaign : string;
  interests : option (list string);
  referrer : option string;
  user_agent : option string;
  ip_address : option string;
  utm_source : option string;
  utm_medium : option string;
  utm_campaign : option string;
  utm_content : option string
}.
End NewsletterSignup.

(** A row of the [subscribers] table, one field per column. TEXT columns are
    strings, nullable ones options; INTEGER columns are [option Z]. *)
Module Subscriber.
Record t := mk {
  id : string;
  email : string;
  name : option string;
  source : string;
  campaign : string;
  interests : option json;
  referrer : option string;
  user_agent : option string;
  ip_address : option string;
  utm_source : option string;
  utm_medium : option string;
  utm_campaign : option string;
  utm_content : option string;
  is_active : option Z;
  is_confirmed : option Z;
  confirmation_token : option string;
  created_at : string;
  updated_at : string;
  last_email_sent : option string;
  unsubscribed_at : option string;
  metadata : option json
}.
End Subscriber.

(** A row of the [events] table. *)
Module Event.
Record t := mk {
  id : string;
  subscriber_id : option string;
  event_type : string;
  event_data : option json;
  created_at : string
}.
End Event.

(** The two tables the operations below touch, rows in rowid order. (The
    [campaigns] table is written by [init_database] only.) *)
Record database := mk_database {
  subscribers : list Subscriber.t;
  events : list Event.t
}.

(** The schema constraints SQLite enforces on every committed state:
    [id TEXT PRIMARY KEY] on both tables and [email TEXT UNIQUE]. *)
Record schema_ok (db : database) : Prop := {
  subscriber_ids_unique : NoDup (map Subscriber.id (subscribers db));
  emails_unique : NoDup (map Subscriber.email (subscribers db));
  event_ids_unique : NoDup (map Event.id (events db))
}.

(** ** Exceptions and connections *)

Inductive exn :=
| IntegrityError (msg : string)
| ValueError (msg : string)
| OverflowError (msg : string)
| HTTPException (status_code : Z) (detail : string).

(** [str(e)] *)
Definition exn_str (e : exn) : string :=
  match e with
  | IntegrityError m | ValueError m | OverflowError m => m
  | HTTPException _ d => d
  end.

(** An open [sqlite3] connection: what is committed, and what the open
    transaction sees. *)
Record connection := mk_connection {
  committed : database;
  working : database
}.

(** A block of code running on a connection: it raises or returns, and
    leaves the connection in some state either way. *)
Definition Conn (A : Type) : Type := connection -> (exn + A) * connection.

Definition ret {A} (a : A) : Conn A := fun c => (inr a, c).
Definition raise {A} (e : exn) : Conn A := fun c => (inl e, c).

Definition bind {A B} (m : Conn A) (k : A -> Conn B) : Conn B :=
  fun c =>
    match m c with
    | (inl e, c') => (inl e, c')
    | (inr a, c') => k a c'
    end.

Declare Scope conn_scope.
Delimit Scope conn_scope with conn.
Notation "x <- m ;; k" := (bind m (fun x => k))
  (at level 61, m at next level, right associativity) : conn_scope.
Notation "m ;; k" := (bind m (fun _ => k))
  (at level 61, right associativity) : conn_scope.

(** [try: body except sqlite3.IntegrityError: handler] *)
Definition try_except_IntegrityError {A} (body handler : Conn A) : Conn A :=
  fun c =>
    match body c with
    | (inl (IntegrityError _), c') => handler c'
    | r => r
    end.

(** [conn.commit()] *)
Definition commit : Conn unit :=
  fun c => (inr tt, {| committed := working c; working := working c |}).

(** [with self.get_connection() as conn: body]: the connection opens on the
    stored database and [conn.close()] drops whatever was not committed. *)
Definition with_connection {A} (body : Conn A) (db : database)
  : (exn + A) * database :=
  let '(r, c) := body {| committed := db; working := db |} in
  (r, committed c).

(** *** SQL statements *)

Definition existsb_str (x : string) (l : list string) : bool :=
  existsb (String.eqb x) l.

(** [INSERT INTO subscribers ...]: refused, with the table untouched, when
    the id or the email is already there. *)
Definition insert_subscriber (row : Subscriber.t) : Conn unit :=
  fun c =>
    let db := working c in
    if existsb_str (Subscriber.id row) (map Subscriber.id (subscribers db))
    then (inl (IntegrityError "UNIQUE constraint failed: subscribers.id"), c)
    else if existsb_str (Subscriber.email row)
                        (map Subscriber.email (subscribers db))
    then (inl (IntegrityError "UNIQUE constraint failed: subscribers.email"), c)
    else (inr tt,
          {| committed := committed c;
             working := {| subscribers := subscribers db ++ [row];
                           events := events db |} |}).

(** [INSERT INTO events ...]; the foreign key is not enforced (SQLite leaves
    [foreign_keys] off unless asked). *)
Definition insert_event (row : Event.t) : Conn unit :=
  fun c =>
    let db := working c in
    if existsb_str (Event.id row) (map Event.id (events db))
    then (inl (IntegrityError "UNIQUE constraint failed: events.id"), c)
    else (inr tt,
          {| committed := committed c;
             working := {| subscribers := subscribers db;
                           events := events db ++ [row] |} |}).

(** [SELECT id, is_active, unsubscribed_at FROM subscribers WHERE email = ?]
    followed by [fetchone()]. *)
Definition select_by_email (email : string)
  : Conn (option (string * option Z * option string)) :=
  fun c =>
    (inr (option_map
            (fun r => (Subscriber.id r, Subscriber.is_active r,
                       Subscriber.unsubscribed_at r))
            (find (fun r => (Subscriber.email r =? email)%string)
                  (subscribers (working c)))),
     c).

(** The row after [SET is_active = 1, unsubscribed_at = NULL,
    updated_at = ?, source = ?, campaign = ?]. *)
Definition reactivated (now source campaign : string) (r : Subscriber.t)
  : Subscriber.t :=
  {| Subscriber.id := Subscriber.id r;
     Subscriber.email := Subscriber.email r;
     Subscriber.name := Subscriber.name r;
     Subscriber.source := source;
     Subscriber.campaign := campaign;
     Subscriber.interests := Subscriber.interests r;
     Subscriber.referrer := Subscriber.referrer r;
     Subscriber.user_agent := Subscriber.user_agent r;
     Subscriber.ip_address := Subscriber.ip_address r;
     Subscriber.utm_source := Subscriber.utm_source r;
     Subscriber.utm_medium := Subscriber.utm_medium r;
     Subscriber.utm_campaign := Subscriber.utm_campaign r;
     Subscriber.utm_content := Subscriber.utm_content r;
     Subscriber.is_active := Some 1;
     Subscriber.is_confirmed := Subscriber.is_confirmed r;
     Subscriber.confirmation_token := Subscriber.confirmation_token r;
     Subscriber.created_at := Subscriber.created_at r;
     Subscriber.updated_at := now;
     Subscriber.last_email_sent := Subscriber.last_email_sent r;
     Subscriber.unsubscribed_at := None;
     Subscriber.metadata := Subscriber.metadata r |}.

(** [UPDATE subscribers SET ... WHERE email = ?] *)
Definition update_resubscribe (now source campaign email : string)
  : Conn unit :=
  fun c =>
    let db := working c in
    (inr tt,
     {| committed := committed c;
        working :=
          {| subscribers :=
               map (fun r => if (Subscriber.email r =? email)%string
                             then reactivated now source campaign r else r)
                   (subscribers db);
             events := events db |} |}).

(** ** NewsletterDatabase *)

(** What one call of [add_subscriber] reads from the platform, in the order
    the code asks for it: [uuid.uuid4()] for the subscriber id, the clock,
    [uuid.uuid4()] for the confirmation token, and inside [log_event]
    [uuid.uuid4()] for the event id and the clock again. *)
Record draws := mk_draws {
  uuid_subscriber : N;
  clock_now : Time.datetime;
  uuid_token : N;
  uuid_event : N;
  clock_event : Time.datetime
}.

Definition log_event (d : draws) (subscriber_id event_type : string)
    (event_data : list (string * json)) : Conn unit :=
  insert_event
    {| Event.id := Uuid.str (uuid_event d);
       Event.subscriber_id := Some subscriber_id;
       Event.event_type := event_type;
       Event.event_data := Some (JObj event_data);
       Event.created_at := Time.isoformat (clock_event d) |}.

(** The row written by the INSERT of [add_subscriber]; the columns it does
    not list take their defaults. *)
Definition new_subscriber (signup : NewsletterSignup.t)
    (ip_address : option string) (subscriber_id token now : string)
  : Subscriber.t :=
  {| Subscriber.id := subscriber_id;
     Subscriber.email := NewsletterSignup.email signup;
     Subscriber.name := NewsletterSignup.name signup;
     Subscriber.source := NewsletterSignup.source signup;
     Subscriber.campaign := NewsletterSignup.campaign signup;
     Subscriber.interests :=
       Some (JArr (map JStr
                       match NewsletterSignup.interests signup with
                       | Some l => l
                       | None => []
                       end));
     Subscriber.referrer := NewsletterSignup.referrer signup;
     Subscriber.user_agent := NewsletterSignup.user_agent signup;
     Subscriber.ip_address := ip_address;
     Subscriber.utm_source := NewsletterSignup.utm_source signup;
     Subscriber.utm_medium := NewsletterSignup.utm_medium signup;
     Subscriber.utm_campaign := NewsletterSignup.utm_campaign signup;
     Subscriber.utm_content := NewsletterSignup.utm_content signup;
     Subscriber.is_active := Some 1;
     Subscriber.is_confirmed := Some 0;
     Subscriber.confirmation_token := Some token;
     Subscriber.created_at := now;
     Subscriber.updated_at := now;
     Subscriber.last_email_sent := None;
     Subscriber.unsubscribed_at := None;
     Subscriber.metadata := Some (JObj []) |}.

Definition add_subscriber_body (signup : NewsletterSignup.t)
    (ip_address : option string) (d : draws) : Conn string :=
  let subscriber_id := Uuid.str (uuid_subscriber d) in
  let now := Time.isoformat (clock_now d) in
  (try_except_IntegrityError
     (insert_subscriber
        (new_subscriber signup ip_address subscriber_id
                        (Uuid.str (uuid_token d)) now) ;;
      log_event d subscriber_id "signup"
        [("source", JStr (NewsletterSignup.source signup));
         ("campaign", JStr (NewsletterSignup.campaign signup));
         ("ip", json_of_optional ip_address)] ;;
      commit ;;
      ret subscriber_id)
     (result <- select_by_email (NewsletterSignup.email signup) ;;
      match result with
      | Some (existing_id, _, unsubscribed_at) =>
          if truthy unsubscribed_at then
            update_resubscribe now (NewsletterSignup.source signup)
              (NewsletterSignup.campaign signup)
              (NewsletterSignup.email signup) ;;
            log_event d existing_id "resubscribe"
              [("source", JStr (NewsletterSignup.source signup));
               ("campaign", JStr (NewsletterSignup.campaign signup))] ;;
            commit ;;
            ret existing_id
          else raise (ValueError "Email already subscribed")
      | None => raise (ValueError "Email already subscribed")
      end))%conn.

Definition add_subscriber (signup : NewsletterSignup.t)
    (ip_address : option string) (d : draws) (db : database)
  : (exn + string) * database :=
  with_connection (add_subscriber_body signup ip_address d) db.

(** *** Queries *)

(** [column = 1] on an INTEGER column (NULL compares false). *)
Definition sql_is_1 (x : option Z) : bool :=
  match x with
  | Some v => v =? 1
  | None => false
  end.

(** ORDER BY ... DESC: rows are inserted one by one before the first row
    they are not below. SQL leaves the order of ties open. *)
Fixpoint insert_desc {A} (ge : A -> A -> bool) (x : A) (l : list A) : list A :=
  match l with
  | [] => [x]
  | y :: t => if ge x y then x :: y :: t else y :: insert_desc ge x t
  end.

Definition order_by_desc {A} (ge : A -> A -> bool) (l : list A) : list A :=
  fold_right (insert_desc ge) [] l.

(** SELECT key, COUNT( * ) ... GROUP BY key: one row per distinct key. *)
Definition group_count {K} (eq_dec : forall a b : K, {a = b} + {a <> b})
    (keys : list K) : list (K * Z) :=
  map (fun k => (k, Z.of_nat (count_occ eq_dec keys k))) (nodup eq_dec keys).

Definition count_ge {K} (a b : K * Z) : bool := snd b <=? snd a.

(** The order of TEXT values with NULL below every string. *)
Definition text_ge (a b : option string) : bool :=
  match a, b with
  | _, None => true
  | None, Some _ => false
  | Some x, Some y => (y <=? x)%string
  end.

Definition option_string_dec (a b : option string) : {a = b} + {a <> b}.
Proof. decide equality; apply string_dec. Defined.

Module LaunchCountdown.
Record t := mk {
  days : Z;
  hours : Z;
  minutes : Z;
  seconds : Z;
  total_seconds : Z
}.
End LaunchCountdown.

Module Analytics.
Record t := mk {
  total_subscribers : Z;
  active_subscribers : Z;
  confirmed_subscribers : Z;
  daily_signups : list (option string * Z);
  sources : list (string * Z);
  campaigns : list (string * Z);
  launch_countdown : LaunchCountdown.t
}.
End Analytics.

(** [datetime.fromisoformat("2025-09-01T00:00:00+00:00")] *)
Definition launch_date : Time.datetime := Time.make_datetime 2025 9 1 0 0 0 0.

Definition count_where (p : Subscriber.t -> bool) (db : database) : Z :=
  Z.of_nat (List.length (filter p (subscribers db))).

(** The rows selected by [WHERE created_at >= ?], a comparison of TEXT. *)
Definition created_since (cutoff_date : string) (db : database)
  : list Subscriber.t :=
  filter (fun r => (cutoff_date <=? Subscriber.created_at r)%string)
         (subscribers db).

Section GetAnalytics.

(** SQLite's [DATE()] of a TEXT value: the calendar date it denotes, or NULL
    when it does not parse. *)
Variable sql_date : string -> option string.

(** [now0] and [now1] are the two readings of the clock, for the cutoff and
    for the countdown. *)
Definition get_analytics (days : Z) (now0 now1 : Time.datetime)
    (db : database) : exn + Analytics.t :=
  match Time.sub_days now0 days with
  | None => inl (OverflowError "date value out of range")
  | Some cutoff =>
      let cutoff_date := Time.isoformat cutoff in
      let total := count_where (fun _ => true) db in
      let active :=
        count_where (fun r => sql_is_1 (Subscriber.is_active r)) db in
      let confirmed :=
        count_where (fun r => sql_is_1 (Subscriber.is_confirmed r)) db in
      let recent := created_since cutoff_date db in
      let daily_signups :=
        order_by_desc (fun a b => text_ge (fst a) (fst b))
          (group_count option_string_dec
             (map (fun r => sql_date (Subscriber.created_at r)) recent)) in
      let sources :=
        order_by_desc count_ge
          (group_count string_dec (map Subscriber.source recent)) in
      let campaigns :=
        order_by_desc count_ge
          (group_count string_dec (map Subscriber.campaign recent)) in
      let time_diff := Time.datetime_sub launch_date now1 in
      inr {| Analytics.total_subscribers := total;
             Analytics.active_subscribers := active;
             Analytics.confirmed_subscribers := confirmed;
             Analytics.daily_signups := daily_signups;
             Analytics.sources := sources;
             Analytics.campaigns := campaigns;
             Analytics.launch_countdown :=
               {| LaunchCountdown.days := Z.max 0 (Time.td_days time_diff);
                  LaunchCountdown.hours :=
                    Z.max 0 (Time.td_seconds time_diff / 3600);
                  LaunchCountdown.minutes :=
                    Z.max 0 (Time.td_seconds time_diff mod 3600 / 60);
                  LaunchCountdown.seconds :=
                    Z.max 0 (Time.td_seconds time_diff mod 60);
                  LaunchCountdown.total_seconds :=
                    Z.max 0 (Time.int_total_seconds time_diff) |} |}
  end.

End GetAnalytics.

Definition export_subscribers (campaign : option string) (db : database)
  : list Subscriber.t :=
  order_by_desc
    (fun a b => (Subscriber.created_at b <=? Subscriber.created_at a)%string)
    (filter
       (fun r =>
          sql_is_1 (Subscriber.is_active r)
          && (if truthy campaign
              then match campaign with
                   | Some c => (Subscriber.campaign r =? c)%string
                   | None => true
                   end
              else true))
       (subscribers db)).

(** ** The signup service *)

Module Request.
(** What [process_signup] reads of the HTTP request: the X-Forwarded-For
    header, and the host of [request.client] when there is a client. *)
Record t := mk {
  x_forwarded_for : option string;
  client_host : option string
}.
End Request.

Module NewsletterResponse.
Record t := mk {
  success : bool;
  message : string;
  subscriber_id : option string
}.
End NewsletterResponse.

(** [s.split(",")[0]] *)
Fixpoint before_comma (s : string) : string :=
  match s with
  | EmptyString => EmptyString
  | String c rest =>
      if Ascii.eqb c "," then EmptyString else String c (before_comma rest)
  end.

Definition get_client_ip (request : Request.t) : string :=
  match Request.x_forwarded_for request with
  | Some forwarded =>
      if truthy (Some forwarded) then before_comma forwarded
      else match Request.client_host request with
           | Some host => host
           | None => "unknown"
           end
  | None =>
      match Request.client_host request with
      | Some host => host
      | None => "unknown"
      end
  end.

(** A welcome email handed to [asyncio.create_task]: address, name and the
    token put in the unsubscribe link. *)
Definition welcome_email : Type := string * option string * string.

Module SignupOutcome.
Record t := mk {
  response : exn + NewsletterResponse.t;
  stored : database;
  scheduled : list welcome_email
}.
End SignupOutcome.

Definition process_signup (signup : NewsletterSignup.t) (request : Request.t)
    (d : draws) (db : database) : SignupOutcome.t :=
  let ip_address := get_client_ip request in
  match add_subscriber signup (Some ip_address) d db with
  | (inr subscriber_id, db') =>
      {| SignupOutcome.response :=
           inr {| NewsletterResponse.success := true;
                  NewsletterResponse.message :=
                    "🎉 You're on the list! Check your email for exclusive updates.";
                  NewsletterResponse.subscriber_id := Some subscriber_id |};
         SignupOutcome.stored := db';
         SignupOutcome.scheduled :=
           [(NewsletterSignup.email signup, NewsletterSignup.name signup,
             subscriber_id)] |}
  | (inl (ValueError msg), db') =>
      {| SignupOutcome.response :=
           if str_contains "already subscribed" msg then
             inr {| NewsletterResponse.success := true;
                    NewsletterResponse.message :=
                      "You're already on our list! Thanks for your continued interest.";
                    NewsletterResponse.subscriber_id := None |}
           else inl (HTTPException 400 msg);
         SignupOutcome.stored := db';
         SignupOutcome.scheduled := [] |}
  | (inl _, db') =>
      {| SignupOutcome.response :=
           inl (HTTPException 500 "Signup failed. Please try again.");
         SignupOutcome.stored := db';
         SignupOutcome.scheduled := [] |}
  end.

(** ** init_database *)

(** A row of the [campaigns] table. *)
Module Campaign.
Record t := mk {
  id : string;
  name : string;
  description : option string;
  start_date : option string;
  end_date : option string;
  status : option string;
  metadata : option json;
  created_at : string
}.
End Campaign.

(** Everything [init_database] can see: the two tables above and the
    [campaigns] table. *)
Record store := mk_store {
  tables : database;
  campaigns : list Campaign.t
}.

(** The row of the INSERT in [init_database]; [end_date] is not listed and
    [status], [metadata] it gives or leaves to their defaults. *)
Definition default_campaign (now : string) : Campaign.t :=
  {| Campaign.id := "early_access_2025";
     Campaign.name := "Early Access 2025";
     Campaign.description :=
       Some "Pre-launch early access campaign for MuseQuill.ink";
     Campaign.start_date := Some "2024-12-01T00:00:00Z";
     Campaign.end_date := None;
     Campaign.status := Some "active";
     Campaign.metadata := Some (JObj []);
     Campaign.created_at := now |}.

(** [INSERT OR IGNORE INTO campaigns]: a row whose id is taken is dropped
    without an error. *)
Definition insert_or_ignore_campaign (row : Campaign.t)
    (rows : list Campaign.t) : list Campaign.t :=
  if existsb_str (Campaign.id row) (map Campaign.id rows) then rows
  else rows ++ [row].

(** [init_database]: the CREATE TABLE and CREATE INDEX statements are all
    IF NOT EXISTS and leave stored rows alone; then the default campaign is
    inserted unless its id is there, and the transaction commits. *)
Definition init_database (now : Time.datetime) (s : store) : store :=
  {| tables := tables s;
     campaigns :=
       insert_or_ignore_campaign (default_campaign (Time.isoformat now))
                                 (campaigns s) |}.

(** ** The public statistics route *)

Module PublicStats.
Record t := mk {
  total_subscribers : Z;
  launch_countdown : LaunchCountdown.t;
  growth_trend : Z
}.
End PublicStats.

(** [public_stats]: [db.get_analytics(30)] cut down to three fields; an
    exception of [get_analytics] is not caught. *)
Definition public_stats (sql_date : string -> option string)
    (now0 now1 : Time.datetime) (db : database) : exn + PublicStats.t :=
  match get_analytics sql_date 30 now0 now1 db with
  | inl e => inl e
  | inr analytics =>
      inr {| PublicStats.total_subscribers :=
               Analytics.total_subscribers analytics;
             PublicStats.launch_countdown :=
               Analytics.launch_countdown analytics;
             PublicStats.growth_trend :=
               Z.of_nat (List.length (Analytics.daily_signups analytics)) |}
  end.

(** ** python313_compatibility_check.py *)

(** The return values of the checks; what they print is left out. *)
Module Compat.

(** What [importlib.util.find_spec(package)] does: a spec, [None], or an
    exception. *)
Inductive probe := Found | NotFound | Raised.

Definition required_packages : list (string * string) :=
  [("fastapi", "FastAPI web framework");
   ("uvicorn", "ASGI server");
   ("pydantic", "Data validation");
   ("sqlite3", "SQLite database (built-in)");
   ("json", "JSON handling (built-in)");
   ("datetime", "Date/time handling (built-in)");
   ("asyncio", "Async programming (built-in)");
   ("smtplib", "Email sending (built-in)");
   ("email", "Email utilities (built-in)");
   ("pathlib", "Path handling (built-in)");
   ("uuid", "UUID generation (built-in)");
   ("logging", "Logging (built-in)");
   ("os", "OS interface (built-in)");
   ("re", "Regular expressions (built-in)")].

Definition optional_packages : list (string * string) :=
  [("aiosmtplib", "Async SMTP client");
   ("structlog", "Structured logging");
   ("pandas", "Data analysis");
   ("plotly", "Data visualization");
   ("psycopg2", "PostgreSQL adapter");
   ("sqlalchemy", "SQL toolkit");
   ("redis", "Redis client");
   ("httpx", "HTTP client");
   ("requests", "HTTP library");
   ("slowapi", "Rate limiting")].

(** [sys.version_info] *)
Record version_info := mk_version {
  major : Z;
  minor : Z;
  micro : Z
}.

(** The minor version only selects the message printed. *)
Definition check_python_version (version : version_info) : bool :=
  if negb (major version =? 3) then false else true.

(** One of the two counting loops: a package counts when [find_spec] returns
    a spec; [None] and an exception only print. *)
Fixpoint count_available (find_spec : string -> probe)
    (packages : list (string * string)) (available : Z) : Z :=
  match packages with
  | [] => available
  | (package, _) :: rest =>
      count_available find_spec rest
        match find_spec package with
        | Found => available + 1
        | NotFound | Raised => available
        end
  end.

Definition check_package_availability (find_spec : string -> probe) : bool :=
  let required_available := count_available find_spec required_packages 0 in
  let optional_available := count_available find_spec optional_packages 0 in
  required_available =? Z.of_nat (List.length required_packages).

(** The machine the script runs on: the interpreter version, the importable
    packages, and the outcome of the four self-tests, each [Some] of what
    it returns or [None] when it raises. *)
Record environment := mk_environment {
  version : version_info;
  find_spec : string -> probe;
  test_fastapi_compatibility : option bool;
  test_database_operations : option bool;
  test_email_functionality : option bool;
  test_async_functionality : option bool
}.

(** [try: result = test_func() except Exception: result = False] *)
Definition run_test (outcome : option bool) : bool :=
  match outcome with
  | Some result => result
  | None => false
  end.

Definition generate_compatibility_report (env : environment) : bool :=
  let results :=
    [("Python Version", run_test (Some (check_python_version (version env))));
     ("Package Availability",
      run_test (Some (check_package_availability (find_spec env))));
     ("FastAPI Compatibility", run_test (test_fastapi_compatibility env));
     ("Database Operations", run_test (test_database_operations env));
     ("Email Functionality", run_test (test_email_functionality env));
     ("Async Functionality", run_test (test_async_functionality env))] in
  let passed :=
    fold_left (fun (passed : Z) (r : string * bool) =>
                 if snd r then passed + 1 else passed)
              results 0 in
  let total := Z.of_nat (List.length results) in
  passed =? total.

(** [main()] with [argv = sys.argv]; the result is the exit code. *)
Definition main (argv : list string) (env : environment) : Z :=
  let success :=
    match argv with
    | _ :: arg1 :: _ =>
        if (arg1 =? "--quick")%string
        then check_python_version (version env)
             && check_package_availability (find_spec env)
        else generate_compatibility_report env
    | _ => generate_compatibility_report env
    end in
  if success then 0 else 1.

End Compat.

(** * Vocabulary of the properties *)

(** ** Rows and events *)

(** The event [log_event] appends. *)
Definition logged_event (d : draws) (subscriber_id event_type : string)
    (event_data : list (string * json)) : Event.t :=
  {| Event.id := Uuid.str (uuid_event d);
     Event.subscriber_id := Some subscriber_id;
     Event.event_type := event_type;
     Event.event_data := Some (JObj event_data);
     Event.created_at := Time.isoformat (clock_event d) |}.

(** The columns the reactivating UPDATE does not assign. *)
Definition other_columns_preserved (r r' : Subscriber.t) : Prop :=
  Subscriber.id r' = Subscriber.id r
  /\ Subscriber.email r' = Subscriber.email r
  /\ Subscriber.name r' = Subscriber.name r
  /\ Subscriber.interests r' = Subscriber.interests r
  /\ Subscriber.referrer r' = Subscriber.referrer r
  /\ Subscriber.user_agent r' = Subscriber.user_agent r
  /\ Subscriber.ip_address r' = Subscriber.ip_address r
  /\ Subscriber.utm_source r' = Subscriber.utm_source r
  /\ Subscriber.utm_medium r' = Subscriber.utm_medium r
  /\ Subscriber.utm_campaign r' = Subscriber.utm_campaign r
  /\ Subscriber.utm_content r' = Subscriber.utm_content r
  /\ Subscriber.is_confirmed r' = Subscriber.is_confirmed r
  /\ Subscriber.confirmation_token r' = Subscriber.confirmation_token r
  /\ Subscriber.created_at r' = Subscriber.created_at r
  /\ Subscriber.last_email_sent r' = Subscriber.last_email_sent r
  /\ Subscriber.metadata r' = Subscriber.metadata r.

(** The WHERE clause [export_subscribers] builds for a campaign argument. *)
Definition exported (campaign : option string) (r : Subscriber.t) : bool :=
  sql_is_1 (Subscriber.is_active r)
  && match campaign with
     | Some c => (c =? "")%string || (Subscriber.campaign r =? c)%string
     | None => true
     end.

(** ** Aggregates *)

(** The sum of the [count] column of an aggregate. *)
Definition total_count {K} (rows : list (K * Z)) : Z :=
  fold_right Z.add 0 (map snd rows).

(** The count an aggregate reports for the key [k] (0 when it has no row
    for [k]). *)
Definition count_for {K} (eq_dec : forall a b : K, {a = b} + {a <> b})
    (k : K) (rows : list (K * Z)) : Z :=
  total_count (filter (fun e => if eq_dec (fst e) k then true else false) rows).

(** The three windowed aggregates of [a] count exactly the rows of [db]
    whose [created_at] is not below [cutoff_date], key by key. *)
Definition aggregates_over (sql_date : string -> option string)
    (cutoff_date : string) (db : database) (a : Analytics.t) : Prop :=
  let recent := created_since cutoff_date db in
  (forall k,
     count_for option_string_dec k (Analytics.daily_signups a)
     = Z.of_nat (count_occ option_string_dec
                   (map (fun r => sql_date (Subscriber.created_at r)) recent) k))
  /\ (forall k,
        count_for string_dec k (Analytics.sources a)
        = Z.of_nat (count_occ string_dec (map Subscriber.source recent) k))
  /\ (forall k,
        count_for string_dec k (Analytics.campaigns a)
        = Z.of_nat (count_occ string_dec (map Subscriber.campaign recent) k))
  /\ total_count (Analytics.daily_signups a) = Z.of_nat (List.length recent)
  /\ total_count (Analytics.sources a) = Z.of_nat (List.length recent)
  /\ total_count (Analytics.campaigns a) = Z.of_nat (List.length recent).

(** ** Calendar dates *)

(** The order on (year, month, day). *)
Definition ymd_compare (p q : Z * Z * Z) : comparison :=
  let '(y, m, d) := p in
  let '(y', m', d') := q in
  match y ?= y' with
  | Eq => match m ?= m' with Eq => d ?= d' | c => c end
  | c => c
  end.

(** [cur] has a valid month and day and is a later date than [prev]. *)
Definition next_day_ok (prev cur : Z * Z * Z) : bool :=
  let '(_, m, d) := cur in
  (1 <=? m) && (m <=? 12) && (1 <=? d) && (d <=? 31)
  && match ymd_compare prev cur with
     | Lt => true
     | _ => false
     end.

(** [next_day_ok] on the [n] consecutive days that start at ordinal
    [o], [prev] being the date of the day before. *)
Fixpoint check_days (n : nat) (o : Z) (prev : Z * Z * Z) : bool :=
  match n with
  | O => true
  | S n' =>
      let cur := Time.ord2ymd o in
      next_day_ok prev cur && check_days n' (o + 1) cur
  end.

(** ** Sample data *)

Definition sample_signup : NewsletterSignup.t :=
  {| NewsletterSignup.email := "a@example.com";
     NewsletterSignup.name := None;
     NewsletterSignup.source := "landing_page";
     NewsletterSignup.campaign := "early_access_2025";
     NewsletterSignup.interests := None;
     NewsletterSignup.referrer := None;
     NewsletterSignup.user_agent := None;
     NewsletterSignup.ip_address := None;
     NewsletterSignup.utm_source := None;
     NewsletterSignup.utm_medium := None;
     NewsletterSignup.utm_campaign := None;
     NewsletterSignup.utm_content := None |}.

(** A stored row for a@example.com with the given [is_active] and
    [unsubscribed_at]. *)
Definition sample_row (is_active : option Z) (unsubscribed_at : option string)
  : Subscriber.t :=
  {| Subscriber.id := "0b5d3c0e-7a55-4e0a-9d51-3f1f0c8a2b11";
     Subscriber.email := "a@example.com";
     Subscriber.name := Some "Ada";
     Subscriber.source := "twitter";
     Subscriber.campaign := "beta";
     Subscriber.interests := Some (JArr []);
     Subscriber.referrer := None;
     Subscriber.user_agent := None;
     Subscriber.ip_address := Some "192.0.2.7";
     Subscriber.utm_source := None;
     Subscriber.utm_medium := None;
     Subscriber.utm_campaign := None;
     Subscriber.utm_content := None;
     Subscriber.is_active := is_active;
     Subscriber.is_confirmed := Some 0;
     Subscriber.confirmation_token := Some "tok";
     Subscriber.created_at := "2025-07-20T08:30:00+00:00";
     Subscriber.updated_at := "2025-07-25T09:00:00+00:00";
     Subscriber.last_email_sent := None;
     Subscriber.unsubscribed_at := unsubscribed_at;
     Subscriber.metadata := Some (JObj []) |}.

Definition sample_db (rows : list Subscriber.t) : database :=
  {| subscribers := rows; events := [] |}.

Definition sample_draws : draws :=
  {| uuid_subscriber := 1;
     clock_now := Time.make_datetime 2025 8 1 12 0 0 0;
     uuid_token := 2;
     uuid_event := 3;
     clock_event := Time.make_datetime 2025 8 1 12 0 0 250 |}.

Definition sample_request : Request.t :=
  {| Request.x_forwarded_for := Some "203.0.113.9, 10.0.0.1";
     Request.client_host := Some "10.0.0.1" |}.

(** [DATE()] on the timestamps the service writes: their first ten
    characters. *)
Definition sample_sql_date (s : string) : option string :=
  Some (String.substring 0 10 s).

(** A stored row of another subscriber, whose id is the one [sample_draws]
    generates next. *)
Definition sample_other_row : Subscriber.t :=
  {| Subscriber.id := "00000000-0000-0000-0000-000000000001";
     Subscriber.email := "b@example.com";
     Subscriber.name := None;
     Subscriber.source := "landing_page";
     Subscriber.campaign := "early_access_2025";
     Subscriber.interests := Some (JArr []);
     Subscriber.referrer := None;
     Subscriber.user_agent := None;
     Subscriber.ip_address := None;
     Subscriber.utm_source := None;
     Subscriber.utm_medium := None;
     Subscriber.utm_campaign := None;
     Subscriber.utm_content := None;
     Subscriber.is_active := Some 1;
     Subscriber.is_confirmed := Some 0;
     Subscriber.confirmation_token := Some "tok2";
     Subscriber.created_at := "2025-07-01T10:00:00+00:00";
     Subscriber.updated_at := "2025-07-01T10:00:00+00:00";
     Subscriber.last_email_sent := None;
     Subscriber.unsubscribed_at := None;
     Subscriber.metadata := Some (JObj []) |}.

(** A stored event whose id is the event id [sample_draws] generates. *)
Definition sample_event : Event.t :=
  {| Event.id := "00000000-0000-0000-0000-000000000003";
     Event.subscriber_id := None;
     Event.event_type := "email_sent";
     Event.event_data := Some (JObj []);
     Event.created_at := "2025-07-02T10:00:00+00:00" |}.

Definition sample_environment (found : string -> Compat.probe)
  : Compat.environment :=
  {| Compat.version := {| Compat.major := 3; Compat.minor := 9;
                          Compat.micro := 2 |};
     Compat.find_spec := found;
     Compat.test_fastapi_compatibility := Some true;
     Compat.test_database_operations := None;
     Compat.test_email_functionality := Some true;
     Compat.test_async_functionality := Some true |}.

(** * Properties *)

(** ** The launch countdown *)

Section Countdown.

Variable sql_date : string -> option string.

Lemma launch_date_value : launch_date = 739494 * Time.US_PER_DAY.
Proof. reflexivity. Qed.

Lemma get_analytics_returns days now0 now1 db :
  Time.in_range (now0 - days * Time.US_PER_DAY) = true ->
  exists a, get_analytics sql_date days now0 now1 db = inr a
            /\ Analytics.launch_countdown a =
               (let time_diff := Time.datetime_sub launch_date now1 in
                {| LaunchCountdown.days := Z.max 0 (Time.td_days time_diff);
                   LaunchCountdown.hours :=
                     Z.max 0 (Time.td_seconds time_diff / 3600);
                   LaunchCountdown.minutes :=
                     Z.max 0 (Time.td_seconds time_diff mod 3600 / 60);
                   LaunchCountdown.seconds :=
                     Z.max 0 (Time.td_seconds time_diff mod 60);
                   LaunchCountdown.total_seconds :=
                     Z.max 0 (Time.int_total_seconds time_diff) |}).
Proof.
  intros Hrange. unfold get_analytics, Time.sub_days. rewrite Hrange.
  eexists. split; reflexivity.
Qed.

(** C6: with the clock at the launch instant minus 90,061 seconds, the
    countdown returned by [get_analytics] is 1 day, 1 hour, 1 minute and
    1 second, 90061 seconds in total. *)
Theorem launch_countdown_90061 days now0 db :
  Time.in_range (now0 - days * Time.US_PER_DAY) = true ->
  exists a,
    get_analytics sql_date days now0
      (launch_date - 90061 * Time.US_PER_SECOND) db = inr a
    /\ Analytics.launch_countdown a =
       {| LaunchCountdown.days := 1; LaunchCountdown.hours := 1;
          LaunchCountdown.minutes := 1; LaunchCountdown.seconds := 1;
          LaunchCountdown.total_seconds := 90061 |}.
Proof.
  intros Hrange.
  destruct (get_analytics_returns days now0
              (launch_date - 90061 * Time.US_PER_SECOND) db Hrange)
    as [a [Ha Hc]].
  exists a. split; [exact Ha|]. rewrite Hc. reflexivity.
Qed.

(** At the launch instant itself every field is zero. *)
Lemma launch_countdown_at_launch days now0 db :
  Time.in_range (now0 - days * Time.US_PER_DAY) = true ->
  exists a,
    get_analytics sql_date days now0 launch_date db = inr a
    /\ Analytics.launch_countdown a =
       {| LaunchCountdown.days := 0; LaunchCountdown.hours := 0;
          LaunchCountdown.minutes := 0; LaunchCountdown.seconds := 0;
          LaunchCountdown.total_seconds := 0 |}.
Proof.
  intros Hrange.
  destruct (get_analytics_returns days now0 launch_date db Hrange)
    as [a [Ha Hc]].
  exists a. split; [exact Ha|]. rewrite Hc. reflexivity.
Qed.

(** C1, one second after launch: the difference is the normalised timedelta
    of -1 day and 86399 seconds, whose [seconds] field the [max] leaves at
    23:59:59; only [days] and [total_seconds] are clamped to zero. *)
Theorem launch_countdown_one_second_late db :
  exists a,
    get_analytics sql_date 30 (launch_date + Time.US_PER_SECOND)
      (launch_date + Time.US_PER_SECOND) db = inr a
    /\ Analytics.launch_countdown a =
       {| LaunchCountdown.days := 0; LaunchCountdown.hours := 23;
          LaunchCountdown.minutes := 59; LaunchCountdown.seconds := 59;
          LaunchCountdown.total_seconds := 0 |}.
Proof.
  destruct (get_analytics_returns 30 (launch_date + Time.US_PER_SECOND)
              (launch_date + Time.US_PER_SECOND) db eq_refl)
    as [a [Ha Hc]].
  exists a. split; [exact Ha|]. rewrite Hc. reflexivity.
Qed.

(** Once launch has passed, [days] and [total_seconds] are zero; the other
    three fields are the clock-time fields of the normalised difference. *)
Lemma launch_countdown_after_launch days now0 now1 db :
  Time.in_range (now0 - days * Time.US_PER_DAY) = true ->
  launch_date <= now1 ->
  exists a,
    get_analytics sql_date days now0 now1 db = inr a
    /\ LaunchCountdown.days (Analytics.launch_countdown a) = 0
    /\ LaunchCountdown.total_seconds (Analytics.launch_countdown a) = 0
    /\ (LaunchCountdown.hours (Analytics.launch_countdown a) = 0
        /\ LaunchCountdown.minutes (Analytics.launch_countdown a) = 0
        /\ LaunchCountdown.seconds (Analytics.launch_countdown a) = 0
        <-> (launch_date - now1) mod Time.US_PER_DAY < Time.US_PER_SECOND).
Proof.
  intros Hrange Hlate.
  destruct (get_analytics_returns days now0 now1 db Hrange) as [a [Ha Hc]].
  exists a. split; [exact Ha|]. rewrite Hc. cbn -[Z.div Z.modulo Z.quot Z.max launch_date].
  unfold Time.int_total_seconds, Time.datetime_sub.
  cbn -[Z.div Z.modulo Z.quot Z.max launch_date].
  unfold Time.US_PER_DAY, Time.US_PER_SECOND.
  set (us := launch_date - now1) in *.
  assert (Hus : us <= 0) by (unfold us; lia).
  clearbody us. clear Ha Hc Hrange Hlate.
  assert (Hd : Z.max 0 (us / 86400000000) = 0)
    by (Z.to_euclidean_division_equations; lia).
  assert (Hq : Z.quot ((us / 86400000000 * 86400
                        + us mod 86400000000 / 1000000) * 1000000
                       + us mod 1000000) 1000000 <= 0).
  { apply Z.quot_le_upper_bound; [lia|].
    Z.to_euclidean_division_equations; lia. }
  split; [exact Hd|]. split; [lia|].
  split.
  - intros (Hh & Hm & Hs). Z.to_euclidean_division_equations; lia.
  - intros Hlt. repeat split; Z.to_euclidean_division_equations; lia.
Qed.

End Countdown.

(** ** add_subscriber *)

Lemma existsb_str_In x l : existsb_str x l = true <-> In x l.
Proof.
  unfold existsb_str. rewrite existsb_exists. split.
  - intros [y [Hy He]]. apply String.eqb_eq in He. now subst.
  - intros H. exists x. split; [exact H | apply String.eqb_refl].
Qed.

Lemma existsb_str_fresh x l : ~ In x l -> existsb_str x l = false.
Proof.
  intros H. destruct (existsb_str x l) eqn:E; [|reflexivity].
  apply existsb_str_In in E. contradiction.
Qed.

(** With [email] UNIQUE, the SELECT by email finds the row itself. *)
Lemma find_email_unique l r :
  NoDup (map Subscriber.email l) -> In r l ->
  find (fun x => (Subscriber.email x =? Subscriber.email r)%string) l = Some r.
Proof.
  induction l as [|x l IH]; intros Hnd Hin; [contradiction|].
  cbn in Hnd. inversion Hnd as [|? ? Hx Hnd']; subst.
  cbn. destruct Hin as [->|Hin].
  - now rewrite String.eqb_refl.
  - destruct (String.eqb_spec (Subscriber.email x) (Subscriber.email r)) as [E|E].
    + exfalso. apply Hx. rewrite E. now apply in_map.
    + now apply IH.
Qed.

Lemma find_email_absent l e :
  ~ In e (map Subscriber.email l) ->
  find (fun x => (Subscriber.email x =? e)%string) l = None.
Proof.
  induction l as [|x l IH]; intros Hn; [reflexivity|].
  cbn in *. destruct (String.eqb_spec (Subscriber.email x) e) as [E|E].
  - exfalso. apply Hn. now left.
  - apply IH. intros H. apply Hn. now right.
Qed.

(** With [email] UNIQUE, the UPDATE by email rewrites that one row in
    place. *)
Lemma update_email_unique (f : Subscriber.t -> Subscriber.t) l r :
  NoDup (map Subscriber.email l) -> In r l ->
  exists l1 l2,
    l = l1 ++ r :: l2
    /\ map (fun x => if (Subscriber.email x =? Subscriber.email r)%string
                     then f x else x) l
       = l1 ++ f r :: l2.
Proof.
  induction l as [|x l IH]; intros Hnd Hin; [contradiction|].
  cbn in Hnd. inversion Hnd as [|? ? Hx Hnd']; subst.
  destruct Hin as [->|Hin].
  - exists [], l. split; [reflexivity|]. cbn. rewrite String.eqb_refl.
    f_equal. rewrite <- (map_id l) at 2. apply map_ext_in.
    intros y Hy.
    destruct (String.eqb_spec (Subscriber.email y) (Subscriber.email r)) as [E|E];
      [|reflexivity].
    exfalso. apply Hx. rewrite <- E. now apply in_map.
  - destruct (IH Hnd' Hin) as [l1 [l2 [E1 E2]]].
    exists (x :: l1), l2. split; [now rewrite E1|].
    cbn. rewrite E2.
    destruct (String.eqb_spec (Subscriber.email x) (Subscriber.email r)) as [E|E];
      [|reflexivity].
    exfalso. apply Hx. rewrite E. now apply in_map.
Qed.

(** The INSERT of a row whose email is taken raises [IntegrityError] and
    leaves the connection as it was. *)
Lemma insert_subscriber_conflict row c :
  In (Subscriber.email row) (map Subscriber.email (subscribers (working c))) ->
  exists msg, insert_subscriber row c = (inl (IntegrityError msg), c).
Proof.
  intros H. unfold insert_subscriber.
  destruct (existsb_str (Subscriber.id row) _); [eauto|].
  apply existsb_str_In in H. rewrite H. eauto.
Qed.

(** What [add_subscriber] does when the email already has a row [r]: the
    outcome is read off [unsubscribed_at] alone. *)
Lemma add_subscriber_existing signup ip_address d db r :
  NoDup (map Subscriber.email (subscribers db)) ->
  In r (subscribers db) ->
  Subscriber.email r = NewsletterSignup.email signup ->
  add_subscriber signup ip_address d db =
    if truthy (Subscriber.unsubscribed_at r) then
      if existsb_str (Uuid.str (uuid_event d)) (map Event.id (events db))
      then (inl (IntegrityError "UNIQUE constraint failed: events.id"), db)
      else
        (inr (Subscriber.id r),
         {| subscribers :=
              map (fun x =>
                     if (Subscriber.email x =? Subscriber.email r)%string
                     then reactivated (Time.isoformat (clock_now d))
                            (NewsletterSignup.source signup)
                            (NewsletterSignup.campaign signup) x
                     else x)
                  (subscribers db);
            events :=
              events db
              ++ [logged_event d (Subscriber.id r) "resubscribe"
                    [("source", JStr (NewsletterSignup.source signup));
                     ("campaign", JStr (NewsletterSignup.campaign signup))]] |})
    else (inl (ValueError "Email already subscribed"), db).
Proof.
  intros Hnd Hin Hemail.
  unfold add_subscriber, with_connection, add_subscriber_body,
    try_except_IntegrityError, bind.
  set (c0 := {| committed := db; working := db |}).
  destruct (insert_subscriber_conflict
              (new_subscriber signup ip_address (Uuid.str (uuid_subscriber d))
                 (Uuid.str (uuid_token d)) (Time.isoformat (clock_now d))) c0)
    as [msg Hins].
  { cbn. rewrite <- Hemail. now apply in_map. }
  rewrite Hins. unfold select_by_email. cbn [working c0].
  rewrite <- Hemail, (find_email_unique _ _ Hnd Hin). cbn [option_map].
  destruct (truthy (Subscriber.unsubscribed_at r)); [|reflexivity].
  unfold update_resubscribe, log_event, insert_event, commit, ret.
  cbn [working committed c0 subscribers events Event.id].
  destruct (existsb_str (Uuid.str (uuid_event d)) (map Event.id (events db)));
    reflexivity.
Qed.

(** What [add_subscriber] does on an email without a row, when the two
    generated ids are unused. *)
Lemma add_subscriber_fresh signup ip_address d db :
  ~ In (NewsletterSignup.email signup)
       (map Subscriber.email (subscribers db)) ->
  ~ In (Uuid.str (uuid_subscriber d)) (map Subscriber.id (subscribers db)) ->
  ~ In (Uuid.str (uuid_event d)) (map Event.id (events db)) ->
  add_subscriber signup ip_address d db =
    (inr (Uuid.str (uuid_subscriber d)),
     {| subscribers :=
          subscribers db
          ++ [new_subscriber signup ip_address (Uuid.str (uuid_subscriber d))
                (Uuid.str (uuid_token d)) (Time.isoformat (clock_now d))];
        events :=
          events db
          ++ [logged_event d (Uuid.str (uuid_subscriber d)) "signup"
                [("source", JStr (NewsletterSignup.source signup));
                 ("campaign", JStr (NewsletterSignup.campaign signup));
                 ("ip", json_of_optional ip_address)]] |}).
Proof.
  intros Hemail Hid Hev.
  unfold add_subscriber, with_connection, add_subscriber_body,
    try_except_IntegrityError, bind, insert_subscriber, log_event,
    insert_event, commit, ret.
  cbn [working committed subscribers events Subscriber.id Subscriber.email
       new_subscriber Event.id].
  rewrite (existsb_str_fresh _ _ Hid), (existsb_str_fresh _ _ Hemail).
  cbn [working committed subscribers events].
  rewrite (existsb_str_fresh _ _ Hev). reflexivity.
Qed.

Lemma reactivated_preserves now source campaign r :
  other_columns_preserved r (reactivated now source campaign r).
Proof. repeat split. Qed.

Lemma truthy_some t : t <> "" -> truthy (Some t) = true.
Proof.
  intros H. cbn. destruct (String.eqb_spec t ""); [contradiction|reflexivity].
Qed.

(** The reactivation path, spelled out: result, the one rewritten row and
    the appended event. *)
Lemma add_subscriber_reactivation signup ip_address d db r :
  schema_ok db ->
  In r (subscribers db) ->
  Subscriber.email r = NewsletterSignup.email signup ->
  truthy (Subscriber.unsubscribed_at r) = true ->
  ~ In (Uuid.str (uuid_event d)) (map Event.id (events db)) ->
  exists l1 l2,
    subscribers db = l1 ++ r :: l2
    /\ add_subscriber signup ip_address d db =
       (inr (Subscriber.id r),
        {| subscribers :=
             l1 ++ reactivated (Time.isoformat (clock_now d))
                     (NewsletterSignup.source signup)
                     (NewsletterSignup.campaign signup) r :: l2;
           events :=
             events db
             ++ [logged_event d (Subscriber.id r) "resubscribe"
                   [("source", JStr (NewsletterSignup.source signup));
                    ("campaign", JStr (NewsletterSignup.campaign signup))]] |}).
Proof.
  intros Hok Hin Hemail Hunsub Hev.
  pose proof (emails_unique db Hok) as Hnd.
  rewrite (add_subscriber_existing signup ip_address d db r Hnd Hin Hemail).
  rewrite Hunsub, (existsb_str_fresh _ _ Hev).
  destruct (update_email_unique
              (reactivated (Time.isoformat (clock_now d))
                 (NewsletterSignup.source signup)
                 (NewsletterSignup.campaign signup))
              (subscribers db) r Hnd Hin) as [l1 [l2 [E1 E2]]].
  exists l1, l2. split; [exact E1|]. now rewrite E2.
Qed.

(** C2, as amended: when the email has a row whose [unsubscribed_at] is
    neither NULL nor the empty string, and the generated event id is unused,
    [add_subscriber] returns that row's id; the table keeps its rows in
    place except that this row now has [is_active = 1],
    [unsubscribed_at = NULL], [updated_at] = the time read at the start of
    the call, and the signup's [source] and [campaign], every other column
    as before; and the events table gains exactly one [resubscribe] event
    that references the row's id. *)
Theorem add_subscriber_reactivates signup ip_address d db r t :
  schema_ok db ->
  In r (subscribers db) ->
  Subscriber.email r = NewsletterSignup.email signup ->
  Subscriber.unsubscribed_at r = Some t ->
  t <> "" ->
  ~ In (Uuid.str (uuid_event d)) (map Event.id (events db)) ->
  exists db' r' ev l1 l2,
    add_subscriber signup ip_address d db = (inr (Subscriber.id r), db')
    /\ subscribers db = l1 ++ r :: l2
    /\ subscribers db' = l1 ++ r' :: l2
    /\ Subscriber.is_active r' = Some 1
    /\ Subscriber.unsubscribed_at r' = None
    /\ Subscriber.updated_at r' = Time.isoformat (clock_now d)
    /\ Subscriber.source r' = NewsletterSignup.source signup
    /\ Subscriber.campaign r' = NewsletterSignup.campaign signup
    /\ other_columns_preserved r r'
    /\ events db' = events db ++ [ev]
    /\ Event.event_type ev = "resubscribe"
    /\ Event.subscriber_id ev = Some (Subscriber.id r).
Proof.
  intros Hok Hin Hemail Hunsub Ht Hev.
  destruct (add_subscriber_reactivation signup ip_address d db r Hok Hin Hemail)
    as [l1 [l2 [E1 E2]]]; [rewrite Hunsub; now apply truthy_some | exact Hev |].
  eexists _, _, _, l1, l2. split; [exact E2|].
  split; [exact E1|]. split; [reflexivity|].
  repeat (split; [reflexivity|]).
  split; [apply reactivated_preserves|].
  repeat split.
Qed.

(** C3, as amended: when the email has a row whose [unsubscribed_at] is NULL
    (or empty), [add_subscriber] raises the [ValueError] with the fixed
    message "Email already subscribed" and the stored database is exactly
    what it was: no row added or changed, no event appended. *)
Theorem add_subscriber_already_subscribed signup ip_address d db r :
  schema_ok db ->
  In r (subscribers db) ->
  Subscriber.email r = NewsletterSignup.email signup ->
  truthy (Subscriber.unsubscribed_at r) = false ->
  add_subscriber signup ip_address d db =
    (inl (ValueError "Email already subscribed"), db).
Proof.
  intros Hok Hin Hemail Hunsub.
  rewrite (add_subscriber_existing signup ip_address d db r
             (emails_unique db Hok) Hin Hemail).
  now rewrite Hunsub.
Qed.


(** C10: on the reactivation path the [ip_address] argument leaves no
    trace. The row keeps its stored [ip_address], the [resubscribe] event's
    data has the two keys [source] and [campaign] only, and the whole
    outcome is the same for any other [ip_address]. On the signup path the
    event data has the third key [ip] with the argument. *)
Theorem reactivation_drops_ip_address signup ip_address d db r :
  schema_ok db ->
  In r (subscribers db) ->
  Subscriber.email r = NewsletterSignup.email signup ->
  truthy (Subscriber.unsubscribed_at r) = true ->
  ~ In (Uuid.str (uuid_event d)) (map Event.id (events db)) ->
  (exists db' r' ev l1 l2,
     add_subscriber signup ip_address d db = (inr (Subscriber.id r), db')
     /\ subscribers db = l1 ++ r :: l2
     /\ subscribers db' = l1 ++ r' :: l2
     /\ Subscriber.ip_address r' = Subscriber.ip_address r
     /\ events db' = events db ++ [ev]
     /\ Event.event_type ev = "resubscribe"
     /\ Event.event_data ev =
        Some (JObj [("source", JStr (NewsletterSignup.source signup));
                    ("campaign", JStr (NewsletterSignup.campaign signup))]))
  /\ (forall other_ip,
        add_subscriber signup other_ip d db
        = add_subscriber signup ip_address d db)
  /\ (forall db0,
        ~ In (NewsletterSignup.email signup)
             (map Subscriber.email (subscribers db0)) ->
        ~ In (Uuid.str (uuid_subscriber d))
             (map Subscriber.id (subscribers db0)) ->
        ~ In (Uuid.str (uuid_event d)) (map Event.id (events db0)) ->
        exists db0' ev0,
          add_subscriber signup ip_address d db0
          = (inr (Uuid.str (uuid_subscriber d)), db0')
          /\ events db0' = events db0 ++ [ev0]
          /\ Event.event_type ev0 = "signup"
          /\ Event.event_data ev0 =
             Some (JObj [("source", JStr (NewsletterSignup.source signup));
                         ("campaign", JStr (NewsletterSignup.campaign signup));
                         ("ip", json_of_optional ip_address)])).
Proof.
  intros Hok Hin Hemail Hunsub Hev. split; [|split].
  - destruct (add_subscriber_reactivation signup ip_address d db r
                Hok Hin Hemail Hunsub Hev) as [l1 [l2 [E1 E2]]].
    eexists _, _, _, l1, l2. split; [exact E2|].
    split; [exact E1|]. repeat split.
  - intros other_ip.
    now rewrite !(add_subscriber_existing signup _ d db r
                    (emails_unique db Hok) Hin Hemail).
  - intros db0 H1 H2 H3.
    rewrite (add_subscriber_fresh signup ip_address d db0 H1 H2 H3).
    eexists _, _. repeat split.
Qed.

(** ** process_signup *)

Lemma hex_length w : forall n acc,
  String.length (Uuid.hex w n acc) = (w + String.length acc)%nat.
Proof.
  induction w as [|w IH]; intros n acc; cbn [Uuid.hex]; [reflexivity|].
  rewrite IH. cbn. lia.
Qed.

(** [str(uuid.uuid4())] has 36 characters. *)
Lemma uuid_str_length u : String.length (Uuid.str u) = 36%nat.
Proof.
  unfold Uuid.str.
  repeat (rewrite hex_length; cbn [String.length]).
  reflexivity.
Qed.

Lemma uuid_str_nonempty u : Uuid.str u <> "".
Proof.
  intros H. pose proof (uuid_str_length u) as L. rewrite H in L. discriminate.
Qed.

(** Every [ValueError] out of [add_subscriber] is the already-subscribed
    one, and nothing was committed. *)
Lemma add_subscriber_ValueError signup ip_address d db msg db' :
  add_subscriber signup ip_address d db = (inl (ValueError msg), db') ->
  msg = "Email already subscribed" /\ db' = db.
Proof.
  unfold add_subscriber, with_connection, add_subscriber_body,
    try_except_IntegrityError, bind, insert_subscriber, log_event,
    insert_event, select_by_email, update_resubscribe, commit, ret, raise.
  cbn [working committed subscribers events].
  repeat match goal with
         | |- context [if ?b then _ else _] => destruct b
         | |- context [option_map _ ?o] => destruct o as [?|]; cbn [option_map]
         end;
    cbn; intros H; inversion H; auto.
Qed.

(** C7: what the signup service answers. On an email without a row (the
    generated ids being unused) the response has [success = true] and a
    subscriber id, which is not the empty string. Whenever [add_subscriber]
    raises its already-subscribed error the response still has
    [success = true], its message contains "already", and it has no
    subscriber id. *)
Theorem process_signup_responses signup request d db :
  (~ In (NewsletterSignup.email signup)
        (map Subscriber.email (subscribers db)) ->
   ~ In (Uuid.str (uuid_subscriber d)) (map Subscriber.id (subscribers db)) ->
   ~ In (Uuid.str (uuid_event d)) (map Event.id (events db)) ->
   exists message subscriber_id,
     SignupOutcome.response (process_signup signup request d db)
     = inr {| NewsletterResponse.success := true;
              NewsletterResponse.message := message;
              NewsletterResponse.subscriber_id := Some subscriber_id |}
     /\ subscriber_id <> "")
  /\ ((exists msg,
         fst (add_subscriber signup (Some (get_client_ip request)) d db)
         = inl (ValueError msg)) ->
      exists message,
        SignupOutcome.response (process_signup signup request d db)
        = inr {| NewsletterResponse.success := true;
                 NewsletterResponse.message := message;
                 NewsletterResponse.subscriber_id := None |}
        /\ str_contains "already" message = true
        /\ SignupOutcome.stored (process_signup signup request d db) = db).
Proof.
  split.
  - intros H1 H2 H3. unfold process_signup.
    rewrite (add_subscriber_fresh signup _ d db H1 H2 H3).
    eexists _, _. split; [reflexivity|]. apply uuid_str_nonempty.
  - intros [msg Hmsg]. unfold process_signup.
    destruct (add_subscriber signup (Some (get_client_ip request)) d db)
      as [res db'] eqn:E.
    cbn in Hmsg. subst res.
    destruct (add_subscriber_ValueError _ _ _ _ _ _ E) as [-> ->].
    eexists. split; [reflexivity|]. split; reflexivity.
Qed.

(** X10: The end-to-end pair of requests: a first signup on an unused email, then
    the same email again. The second answer is the already-on-the-list one
    and the database is what the first request left. *)
Lemma process_signup_twice signup request d request2 d2 db :
  schema_ok db ->
  ~ In (NewsletterSignup.email signup)
       (map Subscriber.email (subscribers db)) ->
  ~ In (Uuid.str (uuid_subscriber d)) (map Subscriber.id (subscribers db)) ->
  ~ In (Uuid.str (uuid_event d)) (map Event.id (events db)) ->
  let first := process_signup signup request d db in
  let second := process_signup signup request2 d2 (SignupOutcome.stored first) in
  SignupOutcome.response first
  = inr {| NewsletterResponse.success := true;
           NewsletterResponse.message :=
             "🎉 You're on the list! Check your email for exclusive updates.";
           NewsletterResponse.subscriber_id :=
             Some (Uuid.str (uuid_subscriber d)) |}
  /\ SignupOutcome.response second
     = inr {| NewsletterResponse.success := true;
              NewsletterResponse.message :=
                "You're already on our list! Thanks for your continued interest.";
              NewsletterResponse.subscriber_id := None |}
  /\ SignupOutcome.stored second = SignupOutcome.stored first.
Proof.
  intros Hok H1 H2 H3. cbv zeta.
  assert (Hfirst : process_signup signup request d db = _)
    by (unfold process_signup;
        rewrite (add_subscriber_fresh signup _ d db H1 H2 H3); reflexivity).
  rewrite Hfirst. cbn [SignupOutcome.response SignupOutcome.stored].
  split; [reflexivity|].
  set (row := new_subscriber signup (Some (get_client_ip request))
                (Uuid.str (uuid_subscriber d)) (Uuid.str (uuid_token d))
                (Time.isoformat (clock_now d))).
  set (db1 := {| subscribers := subscribers db ++ [row]; events := _ |}).
  assert (Hnd : NoDup (map Subscriber.email (subscribers db1))).
  { cbn. rewrite map_app. cbn.
    apply NoDup_app; [apply (emails_unique db Hok) | | ].
    - constructor; [intros []|constructor].
    - intros e He [<-|[]]. contradiction. }
  unfold process_signup.
  rewrite (add_subscriber_existing signup _ d2 db1 row Hnd);
    [| cbn; apply in_or_app; right; now left | reflexivity].
  cbn. split; reflexivity.
Qed.

(** ** ORDER BY *)

Section OrderBy.

Context {A : Type} (ge : A -> A -> bool).

Hypothesis ge_total : forall a b, ge a b = false -> ge b a = true.
Hypothesis ge_trans :
  forall a b c, ge a b = true -> ge b c = true -> ge a c = true.

Lemma insert_desc_perm x l : Permutation (insert_desc ge x l) (x :: l).
Proof.
  induction l as [|y t IH]; cbn; [reflexivity|].
  destruct (ge x y); [reflexivity|].
  rewrite IH. apply perm_swap.
Qed.

Lemma order_by_desc_perm l : Permutation (order_by_desc ge l) l.
Proof.
  induction l as [|x l IH]; cbn; [constructor|].
  rewrite insert_desc_perm. now constructor.
Qed.

Lemma insert_desc_sorted x l :
  StronglySorted (fun a b => ge a b = true) l ->
  StronglySorted (fun a b => ge a b = true) (insert_desc ge x l).
Proof.
  induction l as [|y t IH]; intros Hs; cbn.
  - constructor; constructor.
  - inversion Hs as [|? ? Ht Hy]; subst.
    destruct (ge x y) eqn:E.
    + constructor; [exact Hs|].
      constructor; [exact E|].
      eapply Forall_impl; [|exact Hy]. intros z Hz. now apply ge_trans with y.
    + constructor; [now apply IH|].
      eapply Permutation_Forall; [symmetry; apply insert_desc_perm|].
      constructor; [now apply ge_total | exact Hy].
Qed.

Lemma order_by_desc_sorted l :
  StronglySorted (fun a b => ge a b = true) (order_by_desc ge l).
Proof.
  induction l as [|x l IH]; cbn; [constructor|].
  now apply insert_desc_sorted.
Qed.

End OrderBy.

(** *** The byte order of TEXT values *)

Lemma string_leb_trans a :
  forall b c, (a <=? b)%string = true -> (b <=? c)%string = true ->
              (a <=? c)%string = true.
Proof.
  unfold String.leb.
  induction a as [|x a IH]; intros [|y b] [|z c]; cbn;
    try reflexivity; try discriminate.
  unfold Ascii.compare.
  destruct (N.compare_spec (N_of_ascii x) (N_of_ascii y)) as [E1|E1|E1];
    destruct (N.compare_spec (N_of_ascii y) (N_of_ascii z)) as [E2|E2|E2];
    destruct (N.compare_spec (N_of_ascii x) (N_of_ascii z)) as [E3|E3|E3];
    try discriminate; try reflexivity; try lia.
  apply IH.
Qed.

Lemma string_leb_total a b :
  (a <=? b)%string = false -> (b <=? a)%string = true.
Proof.
  intros H. destruct (String.leb_total a b) as [E|E]; congruence.
Qed.

Lemma string_leb_refl a : (a <=? a)%string = true.
Proof.
  destruct (String.leb_total a a); assumption.
Qed.

(** ** export_subscribers *)

Lemma sql_is_1_iff x : sql_is_1 x = true <-> x = Some 1.
Proof.
  destruct x as [v|]; cbn; [|split; discriminate].
  rewrite Z.eqb_eq. split; congruence.
Qed.

Lemma export_subscribers_perm campaign db :
  Permutation (export_subscribers campaign db)
              (filter (exported campaign) (subscribers db)).
Proof.
  unfold export_subscribers. rewrite order_by_desc_perm.
  erewrite filter_ext; [reflexivity|].
  intros r. unfold exported. destruct campaign as [c|]; cbn; [|reflexivity].
  destruct (c =? "")%string; reflexivity.
Qed.

(** C4: [export_subscribers] returns the rows with [is_active = 1], each as
    often as it is stored and no other row; when the campaign argument is a
    non-empty string, only those whose [campaign] equals it; and the result
    is in descending order of [created_at]. *)
Theorem export_subscribers_active_sorted campaign db :
  Permutation (export_subscribers campaign db)
              (filter (exported campaign) (subscribers db))
  /\ (forall r,
        In r (export_subscribers campaign db) <->
        In r (subscribers db)
        /\ Subscriber.is_active r = Some 1
        /\ (forall c, campaign = Some c -> c <> "" ->
                      Subscriber.campaign r = c))
  /\ StronglySorted
       (fun a b =>
          (Subscriber.created_at b <=? Subscriber.created_at a)%string = true)
       (export_subscribers campaign db).
Proof.
  split; [apply export_subscribers_perm|]. split.
  - intros r. split.
    + intros H.
      apply (Permutation_in _ (export_subscribers_perm campaign db)) in H.
      apply filter_In in H. destruct H as [Hin Hsel].
      unfold exported in Hsel. apply andb_true_iff in Hsel.
      destruct Hsel as [Ha Hc]. apply sql_is_1_iff in Ha.
      split; [exact Hin|]. split; [exact Ha|].
      intros c -> Hne. apply orb_true_iff in Hc. destruct Hc as [Hc|Hc].
      * apply String.eqb_eq in Hc. contradiction.
      * now apply String.eqb_eq in Hc.
    + intros (Hin & Ha & Hc).
      apply (Permutation_in _ (Permutation_sym
                                 (export_subscribers_perm campaign db))).
      apply filter_In. split; [exact Hin|].
      unfold exported. apply andb_true_iff. split; [now apply sql_is_1_iff|].
      destruct campaign as [c|]; [|reflexivity].
      destruct (String.eqb_spec c "") as [E|E]; [reflexivity|].
      cbn. apply String.eqb_eq. now apply Hc.
  - unfold export_subscribers. apply order_by_desc_sorted.
    + intros a b. apply string_leb_total.
    + intros a b c H1 H2. eapply string_leb_trans; eassumption.
Qed.

(** C9: the empty string as campaign argument is no filter at all: the
    result is the one for no argument, every row with [is_active = 1]
    whatever its campaign. *)
Theorem export_subscribers_empty_campaign db :
  export_subscribers (Some "") db = export_subscribers None db
  /\ (forall r,
        In r (export_subscribers (Some "") db) <->
        In r (subscribers db) /\ Subscriber.is_active r = Some 1).
Proof.
  split; [reflexivity|].
  intros r.
  assert (Hf : In r (export_subscribers (Some "") db) <->
               In r (filter (exported (Some "")) (subscribers db))).
  { split; apply Permutation_in;
      [|symmetry]; apply export_subscribers_perm. }
  rewrite Hf, filter_In. unfold exported. cbn.
  rewrite andb_true_r, sql_is_1_iff. reflexivity.
Qed.

(** ** The order of isoformat timestamps *)

Lemma ascii_compare_refl c : Ascii.compare c c = Eq.
Proof. unfold Ascii.compare. apply N.compare_refl. Qed.

Lemma string_compare_refl s : String.compare s s = Eq.
Proof.
  induction s as [|c s IH]; cbn; [reflexivity|].
  now rewrite ascii_compare_refl.
Qed.

Lemma string_compare_cons c s t :
  String.compare (String c s) (String c t) = String.compare s t.
Proof. cbn. now rewrite ascii_compare_refl. Qed.

(** Two strings that start with blocks of the same length compare by the
    blocks first. *)
Lemma string_compare_app s1 : forall s2 t1 t2,
  String.length s1 = String.length s2 ->
  String.compare (s1 ++ t1) (s2 ++ t2) =
    match String.compare s1 s2 with
    | Eq => String.compare t1 t2
    | c => c
    end.
Proof.
  induction s1 as [|a s1 IH]; intros [|b s2] t1 t2 L; cbn in *;
    try discriminate; [reflexivity|].
  destruct (Ascii.compare a b); try reflexivity.
  apply IH. now injection L.
Qed.

Lemma zpad_length w : forall n, String.length (Time.zpad w n) = w.
Proof. induction w as [|w IH]; intros n; cbn; [reflexivity|]. now rewrite IH. Qed.

Lemma digit_compare x y :
  0 <= x < 10 -> 0 <= y < 10 ->
  Ascii.compare (Time.digit x) (Time.digit y) = Z.compare x y.
Proof.
  intros Hx Hy. unfold Ascii.compare, Time.digit.
  rewrite !N_ascii_embedding by lia.
  rewrite <- N2Z.inj_compare, !N2Z.inj_add, !Z2N.id by lia.
  apply Z.add_compare_mono_l.
Qed.

Lemma zpad_compare w : forall a b,
  0 <= a < 10 ^ Z.of_nat w -> 0 <= b < 10 ^ Z.of_nat w ->
  String.compare (Time.zpad w a) (Time.zpad w b) = Z.compare a b.
Proof.
  induction w as [|w IH]; intros a b Ha Hb.
  - cbn in *. assert (a = 0) by lia. assert (b = 0) by lia. now subst.
  - cbn [Time.zpad String.compare].
    rewrite Nat2Z.inj_succ, Z.pow_succ_r in Ha, Hb by lia.
    set (p := 10 ^ Z.of_nat w) in *.
    assert (Hp : 0 < p) by (apply Z.pow_pos_nonneg; lia).
    rewrite digit_compare
      by (split; [apply Z.div_pos; lia | apply Z.div_lt_upper_bound; lia]).
    pose proof (Z.div_mod a p ltac:(lia)) as Ea.
    pose proof (Z.div_mod b p ltac:(lia)) as Eb.
    pose proof (Z.mod_pos_bound a p Hp) as Ra.
    pose proof (Z.mod_pos_bound b p Hp) as Rb.
    rewrite IH by assumption.
    destruct (Z.compare_spec (a / p) (b / p)) as [E|E|E].
    + destruct (Z.compare_spec (a mod p) (b mod p)) as [F|F|F];
        symmetry; [apply Z.compare_eq_iff | apply Z.compare_lt_iff
                  | apply Z.compare_gt_iff]; nia.
    + symmetry. apply Z.compare_lt_iff. nia.
    + symmetry. apply Z.compare_gt_iff. nia.
Qed.

Lemma check_days_spec n : forall o prev,
  check_days n o prev = true ->
  prev = Time.ord2ymd (o - 1) ->
  forall k, 0 <= k < Z.of_nat n ->
    next_day_ok (Time.ord2ymd (o + k - 1)) (Time.ord2ymd (o + k)) = true.
Proof.
  induction n as [|n IH]; intros o prev Hc Hp k Hk; [lia|].
  cbn [check_days] in Hc. apply andb_true_iff in Hc. destruct Hc as [H0 Hn].
  destruct (Z.eq_dec k 0) as [->|Hk0].
  - rewrite Z.add_0_r. now subst prev.
  - replace (o + k - 1) with ((o + 1) + (k - 1) - 1) by lia.
    replace (o + k) with ((o + 1) + (k - 1)) by lia.
    apply (IH (o + 1) (Time.ord2ymd o) Hn).
    + f_equal. lia.
    + lia.
Qed.

(** One whole 400-year cycle, by evaluation. *)
Lemma cycle_checked :
  check_days (Z.to_nat Time.DI400Y) 2 (Time.ord2ymd 1) = true.
Proof. vm_compute. reflexivity. Qed.

Lemma ord2ymd_period o q :
  Time.ord2ymd (o + Time.DI400Y * q) =
  let '(y, m, d) := Time.ord2ymd o in (y + 400 * q, m, d).
Proof.
  unfold Time.ord2ymd.
  replace (o + Time.DI400Y * q - 1) with (o - 1 + q * Time.DI400Y) by lia.
  rewrite Z.div_add, Z.mod_add by (unfold Time.DI400Y; lia).
  set (n := (o - 1) mod Time.DI400Y).
  set (n400 := (o - 1) / Time.DI400Y).
  cbv zeta.
  destruct ((n mod Time.DI100Y mod Time.DI4Y / 365 =? 4) || (n / Time.DI100Y =? 4)).
  - f_equal. f_equal. lia.
  - match goal with |- (if ?c then _ else _) = _ => destruct c end;
      f_equal; f_equal; lia.
Qed.

Lemma ymd_compare_shift c p q :
  ymd_compare (let '(y, m, d) := p in (y + c, m, d))
              (let '(y, m, d) := q in (y + c, m, d))
  = ymd_compare p q.
Proof.
  destruct p as [[y m] d], q as [[y' m'] d']. cbn.
  now rewrite (Z.add_comm y c), (Z.add_comm y' c), Z.add_compare_mono_l.
Qed.

Lemma ymd_compare_refl p : ymd_compare p p = Eq.
Proof. destruct p as [[y m] d]. cbn. now rewrite !Z.compare_refl. Qed.

Lemma ymd_compare_antisym p q : ymd_compare q p = CompOpp (ymd_compare p q).
Proof.
  destruct p as [[y m] d], q as [[y' m'] d']. cbn.
  rewrite (Z.compare_antisym y y'), (Z.compare_antisym m m'),
    (Z.compare_antisym d d').
  destruct (y ?= y'), (m ?= m'), (d ?= d'); reflexivity.
Qed.

Lemma ymd_compare_lt_trans p q r :
  ymd_compare p q = Lt -> ymd_compare q r = Lt -> ymd_compare p r = Lt.
Proof.
  destruct p as [[y m] d], q as [[y' m'] d'], r as [[y2 m2] d2]. cbn.
  destruct (Z.compare_spec y y'), (Z.compare_spec y' y2),
    (Z.compare_spec y y2); try discriminate; try lia; try reflexivity;
  destruct (Z.compare_spec m m'), (Z.compare_spec m' m2),
    (Z.compare_spec m m2); try discriminate; try lia; try reflexivity;
  destruct (Z.compare_spec d d'), (Z.compare_spec d' d2),
    (Z.compare_spec d d2); try discriminate; try lia; try reflexivity.
Qed.

(** Each day is followed by a later date with a valid month and day. *)
Lemma ord2ymd_succ o :
  1 <= o ->
  next_day_ok (Time.ord2ymd o) (Time.ord2ymd (o + 1)) = true.
Proof.
  intros Ho.
  set (q := (o - 1) / Time.DI400Y).
  set (k := (o - 1) mod Time.DI400Y).
  assert (Hk : 0 <= k < Time.DI400Y)
    by (apply Z.mod_pos_bound; unfold Time.DI400Y; lia).
  assert (Eo : o = (2 + k - 1) + Time.DI400Y * q).
  { unfold k, q. pose proof (Z.div_mod (o - 1) Time.DI400Y).
    unfold Time.DI400Y in *. lia. }
  assert (Eo1 : o + 1 = (2 + k) + Time.DI400Y * q) by lia.
  rewrite Eo1, Eo at 1. rewrite !ord2ymd_period.
  pose proof (check_days_spec _ _ _ cycle_checked eq_refl k) as H.
  rewrite Z2Nat.id in H by (unfold Time.DI400Y; lia).
  specialize (H Hk).
  unfold next_day_ok in *.
  rewrite ymd_compare_shift.
  destruct (Time.ord2ymd (2 + k)) as [[y m] d]. exact H.
Qed.

Lemma next_day_ok_lt p q : next_day_ok p q = true -> ymd_compare p q = Lt.
Proof.
  unfold next_day_ok. destruct q as [[y m] d].
  rewrite !andb_true_iff. intros [_ H].
  destruct (ymd_compare p (y, m, d)); congruence.
Qed.

Lemma ord2ymd_lt o1 o2 :
  1 <= o1 < o2 -> ymd_compare (Time.ord2ymd o1) (Time.ord2ymd o2) = Lt.
Proof.
  intros H.
  replace o2 with (o1 + 1 + Z.of_nat (Z.to_nat (o2 - o1 - 1))) by lia.
  induction (Z.to_nat (o2 - o1 - 1)) as [|n IH].
  - rewrite Z.add_0_r. apply next_day_ok_lt, ord2ymd_succ. lia.
  - eapply ymd_compare_lt_trans; [exact IH|].
    replace (o1 + 1 + Z.of_nat (S n)) with (o1 + 1 + Z.of_nat n + 1) by lia.
    apply next_day_ok_lt, ord2ymd_succ. lia.
Qed.

(** Dates are ordered as their ordinals. *)
Lemma ord2ymd_compare o1 o2 :
  1 <= o1 -> 1 <= o2 ->
  ymd_compare (Time.ord2ymd o1) (Time.ord2ymd o2) = (o1 ?= o2).
Proof.
  intros H1 H2. destruct (Z.compare_spec o1 o2) as [E|E|E].
  - subst. apply ymd_compare_refl.
  - apply ord2ymd_lt. lia.
  - rewrite ymd_compare_antisym, ord2ymd_lt by lia. reflexivity.
Qed.

Lemma ord2ymd_range o :
  1 <= o <= Time.MAX_ORDINAL ->
  let '(y, m, d) := Time.ord2ymd o in
  1 <= y <= 9999 /\ 1 <= m <= 12 /\ 1 <= d <= 31.
Proof.
  intros Ho.
  pose proof (ord2ymd_compare 1 o ltac:(lia) ltac:(lia)) as Hlo.
  pose proof (ord2ymd_compare o Time.MAX_ORDINAL ltac:(lia) ltac:(lia)) as Hhi.
  assert (Hmd : o = 1 \/
                next_day_ok (Time.ord2ymd (o - 1)) (Time.ord2ymd o) = true).
  { destruct (Z.eq_dec o 1) as [->|Hne]; [now left|right].
    replace o with (o - 1 + 1) at 2 by lia. apply ord2ymd_succ. lia. }
  change (Time.ord2ymd 1) with (1, 1, 1) in Hlo.
  change (Time.ord2ymd Time.MAX_ORDINAL) with (9999, 12, 31) in Hhi.
  destruct Hmd as [->|Hmd]; [cbn; lia|].
  unfold next_day_ok in Hmd.
  destruct (Time.ord2ymd o) as [[y m] d].
  rewrite !andb_true_iff, !Z.leb_le in Hmd.
  unfold ymd_compare in Hlo, Hhi.
  split; [|lia].
  split.
  - destruct (Z.compare_spec 1 y); [lia|lia|].
    destruct (Z.compare_spec 1 o); try congruence; lia.
  - destruct (Z.compare_spec y 9999); [lia|lia|].
    destruct (Z.compare_spec o Time.MAX_ORDINAL); try congruence.
    unfold Time.MAX_ORDINAL in *. lia.
Qed.

Lemma string_app_assoc a : forall b c, ((a ++ b) ++ c = a ++ (b ++ c))%string.
Proof. induction a as [|x a IH]; intros b c; cbn; [reflexivity|]. now rewrite IH. Qed.

Lemma zpad_field_compare w a b s t :
  0 <= a < 10 ^ Z.of_nat w -> 0 <= b < 10 ^ Z.of_nat w ->
  String.compare (Time.zpad w a ++ s) (Time.zpad w b ++ t) =
    match a ?= b with
    | Eq => String.compare s t
    | c => c
    end.
Proof.
  intros Ha Hb.
  rewrite string_compare_app by now rewrite !zpad_length.
  now rewrite zpad_compare.
Qed.

(** Comparing two numbers written as quotient and remainder. *)
Lemma compare_div_mod p a b :
  0 < p ->
  (a ?= b) = match a / p ?= b / p with
             | Eq => a mod p ?= b mod p
             | c => c
             end.
Proof.
  intros Hp.
  pose proof (Z.div_mod a p ltac:(lia)).
  pose proof (Z.div_mod b p ltac:(lia)).
  pose proof (Z.mod_pos_bound a p Hp).
  pose proof (Z.mod_pos_bound b p Hp).
  destruct (Z.compare_spec (a / p) (b / p)) as [E|E|E].
  - destruct (Z.compare_spec (a mod p) (b mod p));
      [apply Z.compare_eq_iff | apply Z.compare_lt_iff | apply Z.compare_gt_iff];
      nia.
  - apply Z.compare_lt_iff. nia.
  - apply Z.compare_gt_iff. nia.
Qed.

(** The optional fraction and the text after it. *)
Lemma fraction_compare u v :
  0 <= u < 1000000 -> 0 <= v < 1000000 ->
  String.compare
    ((if u =? 0 then "" else String "." (Time.zpad 6 u)) ++ "+00:00")
    ((if v =? 0 then "" else String "." (Time.zpad 6 v)) ++ "+00:00")
  = (u ?= v).
Proof.
  intros Hu Hv.
  destruct (Z.eqb_spec u 0) as [->|Nu], (Z.eqb_spec v 0) as [->|Nv].
  - apply string_compare_refl.
  - cbn [String.append String.compare]. symmetry. apply Z.compare_lt_iff. lia.
  - cbn [String.append String.compare]. symmetry. apply Z.compare_gt_iff. lia.
  - cbn [String.append]. rewrite string_compare_cons.
    rewrite zpad_field_compare by (cbn; lia).
    rewrite string_compare_refl. now destruct (u ?= v).
Qed.

Lemma compare_add1 x y : (x + 1 ?= y + 1) = (x ?= y).
Proof. rewrite !(Z.add_comm _ 1). apply Z.add_compare_mono_l. Qed.

Lemma in_range_bounds t :
  Time.in_range t = true -> 0 <= t < Time.MAX_ORDINAL * Time.US_PER_DAY.
Proof.
  unfold Time.in_range. rewrite andb_true_iff, Z.leb_le, Z.ltb_lt. tauto.
Qed.

(** The TEXT order of two timestamps written by [isoformat] is the order of
    the instants. *)
Lemma isoformat_compare a b :
  Time.in_range a = true -> Time.in_range b = true ->
  String.compare (Time.isoformat a) (Time.isoformat b) = (a ?= b).
Proof.
  intros Ha Hb. apply in_range_bounds in Ha, Hb.
  unfold Time.MAX_ORDINAL, Time.US_PER_DAY in Ha, Hb.
  rewrite (compare_div_mod Time.US_PER_DAY a b) by reflexivity.
  rewrite (compare_div_mod Time.US_PER_SECOND (a mod _) (b mod _))
    by reflexivity.
  assert (Ea : (a mod Time.US_PER_DAY) mod Time.US_PER_SECOND
               = a mod Time.US_PER_SECOND)
    by (unfold Time.US_PER_DAY, Time.US_PER_SECOND;
        Z.to_euclidean_division_equations; lia).
  assert (Eb : (b mod Time.US_PER_DAY) mod Time.US_PER_SECOND
               = b mod Time.US_PER_SECOND)
    by (unfold Time.US_PER_DAY, Time.US_PER_SECOND;
        Z.to_euclidean_division_equations; lia).
  rewrite Ea, Eb. clear Ea Eb.
  unfold Time.isoformat.
  set (da := a / Time.US_PER_DAY). set (db := b / Time.US_PER_DAY).
  set (sa := a mod Time.US_PER_DAY / Time.US_PER_SECOND).
  set (sb := b mod Time.US_PER_DAY / Time.US_PER_SECOND).
  set (ua := a mod Time.US_PER_SECOND). set (ub := b mod Time.US_PER_SECOND).
  assert (Hda : 1 <= da + 1 <= Time.MAX_ORDINAL)
    by (unfold da, Time.MAX_ORDINAL, Time.US_PER_DAY;
        Z.to_euclidean_division_equations; lia).
  assert (Hdb : 1 <= db + 1 <= Time.MAX_ORDINAL)
    by (unfold db, Time.MAX_ORDINAL, Time.US_PER_DAY;
        Z.to_euclidean_division_equations; lia).
  assert (Hsa : 0 <= sa < 86400)
    by (unfold sa, Time.US_PER_DAY, Time.US_PER_SECOND;
        Z.to_euclidean_division_equations; lia).
  assert (Hsb : 0 <= sb < 86400)
    by (unfold sb, Time.US_PER_DAY, Time.US_PER_SECOND;
        Z.to_euclidean_division_equations; lia).
  assert (Hua : 0 <= ua < 1000000)
    by (apply Z.mod_pos_bound; reflexivity).
  assert (Hub : 0 <= ub < 1000000)
    by (apply Z.mod_pos_bound; reflexivity).
  pose proof (ord2ymd_range _ Hda) as Ra.
  pose proof (ord2ymd_range _ Hdb) as Rb.
  pose proof (ord2ymd_compare (da + 1) (db + 1) ltac:(lia) ltac:(lia)) as Hc.
  rewrite compare_add1 in Hc.
  rewrite <- Hc. clear Hc.
  rewrite (compare_div_mod 3600 sa sb) by reflexivity.
  rewrite (compare_div_mod 60 (sa mod 3600) (sb mod 3600)) by reflexivity.
  replace ((sa mod 3600) mod 60) with (sa mod 60)
    by (Z.to_euclidean_division_equations; lia).
  replace ((sb mod 3600) mod 60) with (sb mod 60)
    by (Z.to_euclidean_division_equations; lia).
  assert (0 <= sa / 3600 < 100 /\ 0 <= sb / 3600 < 100
          /\ 0 <= sa mod 3600 / 60 < 100 /\ 0 <= sb mod 3600 / 60 < 100
          /\ 0 <= sa mod 60 < 100 /\ 0 <= sb mod 60 < 100)
    as (? & ? & ? & ? & ? & ?)
    by (Z.to_euclidean_division_equations; lia).
  clearbody da db sa sb ua ub.
  destruct (Time.ord2ymd (da + 1)) as [[ya ma] dda].
  destruct (Time.ord2ymd (db + 1)) as [[yb mb] ddb].
  unfold Time.format_date, Time.format_time, ymd_compare.
  rewrite !string_app_assoc. cbn [String.append].
  repeat (rewrite zpad_field_compare by (cbn; lia);
          try rewrite string_compare_cons).
  rewrite fraction_compare by assumption.
  destruct (ya ?= yb), (ma ?= mb), (dda ?= ddb), (sa / 3600 ?= sb / 3600),
    (sa mod 3600 / 60 ?= sb mod 3600 / 60), (sa mod 60 ?= sb mod 60);
    reflexivity.
Qed.

(** ** The analytics window *)

Lemma total_count_perm {K} (l l' : list (K * Z)) :
  Permutation l l' -> total_count l = total_count l'.
Proof.
  unfold total_count. induction 1; cbn; lia.
Qed.

Lemma count_for_perm {K} eq_dec (k : K) l l' :
  Permutation l l' -> count_for eq_dec k l = count_for eq_dec k l'.
Proof.
  intros H. unfold count_for. apply total_count_perm.
  induction H; cbn.
  - constructor.
  - destruct (eq_dec (fst x) k); [now constructor|assumption].
  - destruct (eq_dec (fst x) k), (eq_dec (fst y) k);
      try apply perm_swap; reflexivity.
  - etransitivity; eassumption.
Qed.

Section GroupCount.

Context {K : Type} (eq_dec : forall a b : K, {a = b} + {a <> b}).

Lemma count_for_keyed (f : K -> Z) k ks :
  NoDup ks ->
  count_for eq_dec k (map (fun x => (x, f x)) ks)
  = if in_dec eq_dec k ks then f k else 0.
Proof.
  unfold count_for, total_count.
  induction ks as [|x ks IH]; intros Hnd; [reflexivity|].
  inversion Hnd as [|? ? Hx Hnd']; subst.
  cbn [map filter fst]. specialize (IH Hnd').
  destruct (eq_dec x k) as [->|Hne].
  - cbn [map fold_right snd]. rewrite IH.
    destruct (in_dec eq_dec k ks) as [Hin|_]; [contradiction|].
    destruct (in_dec eq_dec k (k :: ks)) as [_|Hn]; [lia|].
    exfalso. apply Hn. now left.
  - rewrite IH.
    destruct (in_dec eq_dec k ks) as [Hin|Hn],
             (in_dec eq_dec k (x :: ks)) as [Hin'|Hn']; try reflexivity.
    + exfalso. apply Hn'. now right.
    + destruct Hin' as [E|E]; [congruence|contradiction].
Qed.

(** GROUP BY reports for each key the number of rows that have it. *)
Lemma count_for_group_count k keys :
  count_for eq_dec k (group_count eq_dec keys)
  = Z.of_nat (count_occ eq_dec keys k).
Proof.
  unfold group_count.
  rewrite (count_for_keyed (fun x => Z.of_nat (count_occ eq_dec keys x)))
    by apply NoDup_nodup.
  destruct (in_dec eq_dec k (nodup eq_dec keys)) as [Hin|Hn]; [reflexivity|].
  rewrite nodup_In in Hn.
  now rewrite (proj1 (count_occ_not_In eq_dec keys k) Hn).
Qed.

Lemma total_count_keyed_add (f g : K -> Z) ks :
  total_count (map (fun x => (x, f x + g x)) ks)
  = total_count (map (fun x => (x, f x)) ks)
    + total_count (map (fun x => (x, g x)) ks).
Proof.
  unfold total_count. induction ks as [|x ks IH]; cbn in *; lia.
Qed.

Lemma total_count_indicator x ks :
  NoDup ks -> In x ks ->
  total_count (map (fun k => (k, if eq_dec x k then 1 else 0)) ks) = 1.
Proof.
  unfold total_count.
  induction ks as [|y ks IH]; intros Hnd Hin; [contradiction|].
  inversion Hnd as [|? ? Hy Hnd']; subst. cbn.
  destruct (eq_dec x y) as [->|Hne].
  - assert (E : fold_right Z.add 0
                  (map snd (map (fun k => (k, if eq_dec y k then 1 else 0)) ks))
                = 0).
    { clear IH Hnd Hnd' Hin. induction ks as [|z ks IH]; [reflexivity|].
      cbn. destruct (eq_dec y z) as [->|_].
      - exfalso. apply Hy. now left.
      - rewrite IH; [reflexivity|]. intros H. apply Hy. now right. }
    cbn in E. rewrite E. reflexivity.
  - destruct Hin as [E|Hin]; [congruence|]. rewrite (IH Hnd' Hin). reflexivity.
Qed.

Lemma total_count_covering keys : forall ks,
  NoDup ks -> incl keys ks ->
  total_count (map (fun k => (k, Z.of_nat (count_occ eq_dec keys k))) ks)
  = Z.of_nat (List.length keys).
Proof.
  induction keys as [|x keys IH]; intros ks Hnd Hincl.
  - cbn. unfold total_count. induction ks as [|y ks IHks]; [reflexivity|].
    cbn. inversion Hnd; subst. rewrite IHks; [reflexivity|assumption|].
    intros z [].
  - rewrite (map_ext
               (fun k => (k, Z.of_nat (count_occ eq_dec (x :: keys) k)))
               (fun k => (k, Z.of_nat (count_occ eq_dec keys k)
                             + (if eq_dec x k then 1 else 0)))).
    + rewrite total_count_keyed_add.
      rewrite (IH ks Hnd) by (intros z Hz; apply Hincl; now right).
      rewrite total_count_indicator;
        [cbn [List.length]; lia | exact Hnd | apply Hincl; now left].
    + intros k. cbn [count_occ]. destruct (eq_dec x k); f_equal; lia.
Qed.

(** The counts of a GROUP BY add up to the number of rows grouped. *)
Lemma total_count_group_count keys :
  total_count (group_count eq_dec keys) = Z.of_nat (List.length keys).
Proof.
  unfold group_count. apply total_count_covering.
  - apply NoDup_nodup.
  - intros k Hk. now apply nodup_In.
Qed.

End GroupCount.

Lemma isoformat_leb a b :
  Time.in_range a = true -> Time.in_range b = true ->
  (Time.isoformat a <=? Time.isoformat b)%string = (a <=? b).
Proof.
  intros Ha Hb. unfold String.leb, Z.leb.
  now rewrite isoformat_compare.
Qed.

Lemma created_since_In cutoff_date db r :
  In r (created_since cutoff_date db) <->
  In r (subscribers db)
  /\ (cutoff_date <=? Subscriber.created_at r)%string = true.
Proof. unfold created_since. apply filter_In. Qed.

Lemma length_filter_mono {A} (p q : A -> bool) l :
  (forall x, p x = true -> q x = true) ->
  (List.length (filter p l) <= List.length (filter q l))%nat.
Proof.
  intros H. induction l as [|x l IH]; cbn; [lia|].
  destruct (p x) eqn:Ep.
  - rewrite (H x Ep). cbn. lia.
  - destruct (q x); cbn; lia.
Qed.

Lemma count_occ_filter_mono {A K} (eq_dec : forall a b : K, {a = b} + {a <> b})
    (f : A -> K) (p q : A -> bool) l k :
  (forall x, p x = true -> q x = true) ->
  (count_occ eq_dec (map f (filter p l)) k
   <= count_occ eq_dec (map f (filter q l)) k)%nat.
Proof.
  intros H. induction l as [|x l IH]; cbn; [lia|].
  destruct (p x) eqn:Ep.
  - rewrite (H x Ep). cbn. destruct (eq_dec (f x) k); lia.
  - destruct (q x); cbn; [destruct (eq_dec (f x) k)|]; lia.
Qed.

Section Window.

Variable sql_date : string -> option string.

(** What [get_analytics] returns when the cutoff is a valid datetime: the
    three aggregates are over the rows selected by the cutoff text. *)
Lemma get_analytics_aggregates days now0 now1 db :
  Time.in_range (now0 - days * Time.US_PER_DAY) = true ->
  exists a,
    get_analytics sql_date days now0 now1 db = inr a
    /\ Analytics.total_subscribers a = count_where (fun _ => true) db
    /\ Analytics.active_subscribers a
       = count_where (fun r => sql_is_1 (Subscriber.is_active r)) db
    /\ Analytics.confirmed_subscribers a
       = count_where (fun r => sql_is_1 (Subscriber.is_confirmed r)) db
    /\ aggregates_over sql_date
         (Time.isoformat (now0 - days * Time.US_PER_DAY)) db a.
Proof.
  intros Hrange. unfold get_analytics, Time.sub_days. rewrite Hrange.
  eexists. split; [reflexivity|].
  cbn [Analytics.total_subscribers Analytics.active_subscribers
       Analytics.confirmed_subscribers].
  do 3 (split; [reflexivity|]).
  unfold aggregates_over.
  cbn [Analytics.daily_signups Analytics.sources Analytics.campaigns].
  repeat split; intros;
    try (erewrite count_for_perm by apply order_by_desc_perm;
         apply count_for_group_count);
    erewrite total_count_perm by apply order_by_desc_perm;
    rewrite total_count_group_count, ?length_map; reflexivity.
Qed.

(** C5: the [daily_signups], [sources] and [campaigns] aggregates count, key
    by key, the rows whose [created_at] is not below the cutoff
    [isoformat (now - days)] and no other row; for a row stamped by the
    service with instant [t] that is the case exactly when
    [now - days <= t]. With the same clock and database, a larger [days]
    (30 instead of 7) gives totals and per-key counts that are at least as
    large. *)
Theorem analytics_window days1 days2 now0 now1 db :
  Time.in_range (now0 - days1 * Time.US_PER_DAY) = true ->
  Time.in_range (now0 - days2 * Time.US_PER_DAY) = true ->
  days1 <= days2 ->
  exists a1 a2,
    get_analytics sql_date days1 now0 now1 db = inr a1
    /\ get_analytics sql_date days2 now0 now1 db = inr a2
    /\ aggregates_over sql_date
         (Time.isoformat (now0 - days1 * Time.US_PER_DAY)) db a1
    /\ aggregates_over sql_date
         (Time.isoformat (now0 - days2 * Time.US_PER_DAY)) db a2
    /\ (forall r t,
          Subscriber.created_at r = Time.isoformat t ->
          Time.in_range t = true ->
          (In r (created_since
                   (Time.isoformat (now0 - days1 * Time.US_PER_DAY)) db)
           <-> In r (subscribers db) /\ now0 - days1 * Time.US_PER_DAY <= t))
    /\ total_count (Analytics.daily_signups a1)
       <= total_count (Analytics.daily_signups a2)
    /\ total_count (Analytics.sources a1)
       <= total_count (Analytics.sources a2)
    /\ total_count (Analytics.campaigns a1)
       <= total_count (Analytics.campaigns a2)
    /\ (forall k,
          count_for option_string_dec k (Analytics.daily_signups a1)
          <= count_for option_string_dec k (Analytics.daily_signups a2))
    /\ (forall k,
          count_for string_dec k (Analytics.sources a1)
          <= count_for string_dec k (Analytics.sources a2))
    /\ (forall k,
          count_for string_dec k (Analytics.campaigns a1)
          <= count_for string_dec k (Analytics.campaigns a2))
    /\ Analytics.total_subscribers a1 = Analytics.total_subscribers a2
    /\ Analytics.active_subscribers a1 = Analytics.active_subscribers a2
    /\ Analytics.confirmed_subscribers a1
       = Analytics.confirmed_subscribers a2.
Proof.
  intros H1 H2 Hle.
  destruct (get_analytics_aggregates days1 now0 now1 db H1)
    as (a1 & E1 & T1 & Ac1 & Co1 & A1).
  destruct (get_analytics_aggregates days2 now0 now1 db H2)
    as (a2 & E2 & T2 & Ac2 & Co2 & A2).
  exists a1, a2.
  split; [exact E1|]. split; [exact E2|].
  split; [exact A1|]. split; [exact A2|].
  set (c1 := Time.isoformat (now0 - days1 * Time.US_PER_DAY)) in *.
  set (c2 := Time.isoformat (now0 - days2 * Time.US_PER_DAY)) in *.
  assert (Hc : (c2 <=? c1)%string = true).
  { unfold c1, c2. rewrite isoformat_leb by assumption.
    apply Z.leb_le. unfold Time.US_PER_DAY. nia. }
  assert (Hsel : forall r : Subscriber.t,
             (c1 <=? Subscriber.created_at r)%string = true ->
             (c2 <=? Subscriber.created_at r)%string = true).
  { intros r Hr. eapply string_leb_trans; eassumption. }
  split.
  { intros r t Hcreated Ht. rewrite created_since_In, Hcreated.
    unfold c1. rewrite isoformat_leb by assumption.
    now rewrite Z.leb_le. }
  destruct A1 as (D1 & S1 & C1 & TD1 & TS1 & TC1).
  destruct A2 as (D2 & S2 & C2 & TD2 & TS2 & TC2).
  assert (Hlen : Z.of_nat (List.length (created_since c1 db))
                 <= Z.of_nat (List.length (created_since c2 db))).
  { apply Nat2Z.inj_le. unfold created_since.
    apply length_filter_mono. exact Hsel. }
  rewrite TD1, TD2, TS1, TS2, TC1, TC2.
  repeat (split; [exact Hlen|]).
  split; [|split; [|split]].
  - intros k. rewrite D1, D2. apply Nat2Z.inj_le. unfold created_since.
    apply count_occ_filter_mono. exact Hsel.
  - intros k. rewrite S1, S2. apply Nat2Z.inj_le. unfold created_since.
    apply count_occ_filter_mono. exact Hsel.
  - intros k. rewrite C1, C2. apply Nat2Z.inj_le. unfold created_since.
    apply count_occ_filter_mono. exact Hsel.
  - rewrite T1, T2, Ac1, Ac2, Co1, Co2. repeat split.
Qed.

End Window.

Lemma sample_db_schema_ok r : schema_ok (sample_db [r]).
Proof.
  split; cbn; repeat constructor; intros [].
Defined.

(** ** The properties on sample data *)

Lemma launch_countdown_90061_witness :
  exists a,
    get_analytics sample_sql_date 30 (Time.make_datetime 2025 8 1 12 0 0 0)
      (launch_date - 90061 * Time.US_PER_SECOND) (sample_db []) = inr a
    /\ Analytics.launch_countdown a =
       {| LaunchCountdown.days := 1; LaunchCountdown.hours := 1;
          LaunchCountdown.minutes := 1; LaunchCountdown.seconds := 1;
          LaunchCountdown.total_seconds := 90061 |}.
Proof.
  apply (launch_countdown_90061 sample_sql_date 30
           (Time.make_datetime 2025 8 1 12 0 0 0) (sample_db [])).
  reflexivity.
Defined.

Lemma add_subscriber_reactivates_witness :
  exists db',
    add_subscriber sample_signup (Some "203.0.113.9") sample_draws
      (sample_db [sample_row (Some 0) (Some "2025-07-25T09:00:00+00:00")])
    = (inr "0b5d3c0e-7a55-4e0a-9d51-3f1f0c8a2b11", db').
Proof.
  destruct (add_subscriber_reactivates sample_signup (Some "203.0.113.9")
              sample_draws
              (sample_db [sample_row (Some 0)
                            (Some "2025-07-25T09:00:00+00:00")])
              (sample_row (Some 0) (Some "2025-07-25T09:00:00+00:00"))
              "2025-07-25T09:00:00+00:00")
    as (db' & r' & ev & l1 & l2 & E & _).
  - apply sample_db_schema_ok.
  - now left.
  - reflexivity.
  - reflexivity.
  - discriminate.
  - intros [].
  - exists db'. exact E.
Defined.

(** C2 as stated fails on a row whose [unsubscribed_at] is the empty string:
    it is not NULL, yet [add_subscriber] raises the already-subscribed error
    and changes nothing. *)
Lemma reactivation_skips_empty_unsubscribed_at :
  let r := sample_row (Some 0) (Some "") in
  let db := sample_db [r] in
  schema_ok db
  /\ In r (subscribers db)
  /\ Subscriber.email r = NewsletterSignup.email sample_signup
  /\ Subscriber.unsubscribed_at r <> None
  /\ ~ In (Uuid.str (uuid_event sample_draws)) (map Event.id (events db))
  /\ add_subscriber sample_signup (Some "203.0.113.9") sample_draws db
     = (inl (ValueError "Email already subscribed"), db)
  /\ fst (add_subscriber sample_signup (Some "203.0.113.9") sample_draws db)
     <> inr (Subscriber.id r).
Proof.
  cbv zeta. split; [apply sample_db_schema_ok|].
  split; [now left|]. split; [reflexivity|]. split; [discriminate|].
  split; [intros []|].
  assert (E : add_subscriber sample_signup (Some "203.0.113.9") sample_draws
                (sample_db [sample_row (Some 0) (Some "")])
              = (inl (ValueError "Email already subscribed"),
                 sample_db [sample_row (Some 0) (Some "")]))
    by (vm_compute; reflexivity).
  split; [exact E|]. rewrite E. discriminate.
Qed.

Lemma add_subscriber_already_subscribed_witness :
  add_subscriber sample_signup (Some "203.0.113.9") sample_draws
    (sample_db [sample_row (Some 1) None])
  = (inl (ValueError "Email already subscribed"),
     sample_db [sample_row (Some 1) None]).
Proof.
  apply (add_subscriber_already_subscribed sample_signup (Some "203.0.113.9")
           sample_draws (sample_db [sample_row (Some 1) None])
           (sample_row (Some 1) None)).
  - apply sample_db_schema_ok.
  - now left.
  - reflexivity.
  - reflexivity.
Defined.

(** C3 as stated fails on the error's payload: the exception raised for
    a@example.com is [ValueError("Email already subscribed")], whose text
    does not contain the email. *)
Lemma already_subscribed_error_omits_email :
  let r := sample_row (Some 1) None in
  let db := sample_db [r] in
  schema_ok db
  /\ In r (subscribers db)
  /\ Subscriber.email r = NewsletterSignup.email sample_signup
  /\ Subscriber.unsubscribed_at r = None
  /\ exists e,
       fst (add_subscriber sample_signup (Some "203.0.113.9") sample_draws db)
       = inl e
       /\ e = ValueError "Email already subscribed"
       /\ str_contains (Subscriber.email r) (exn_str e) = false.
Proof.
  cbv zeta. split; [apply sample_db_schema_ok|].
  split; [now left|]. split; [reflexivity|]. split; [reflexivity|].
  exists (ValueError "Email already subscribed").
  split; [vm_compute; reflexivity|]. split; reflexivity.
Qed.


Lemma reactivation_drops_ip_address_witness :
  add_subscriber sample_signup None sample_draws
    (sample_db [sample_row (Some 0) (Some "2025-07-25T09:00:00+00:00")])
  = add_subscriber sample_signup (Some "203.0.113.9") sample_draws
      (sample_db [sample_row (Some 0) (Some "2025-07-25T09:00:00+00:00")]).
Proof.
  destruct (reactivation_drops_ip_address sample_signup (Some "203.0.113.9")
              sample_draws
              (sample_db [sample_row (Some 0)
                            (Some "2025-07-25T09:00:00+00:00")])
              (sample_row (Some 0) (Some "2025-07-25T09:00:00+00:00")))
    as (_ & Hany & _).
  - apply sample_db_schema_ok.
  - now left.
  - reflexivity.
  - reflexivity.
  - intros [].
  - apply Hany.
Defined.

Lemma process_signup_responses_witness :
  (exists message subscriber_id,
     SignupOutcome.response
       (process_signup sample_signup sample_request sample_draws
          (sample_db []))
     = inr {| NewsletterResponse.success := true;
              NewsletterResponse.message := message;
              NewsletterResponse.subscriber_id := Some subscriber_id |}
     /\ subscriber_id <> "")
  /\ (exists message,
        SignupOutcome.response
          (process_signup sample_signup sample_request sample_draws
             (sample_db [sample_row (Some 1) None]))
        = inr {| NewsletterResponse.success := true;
                 NewsletterResponse.message := message;
                 NewsletterResponse.subscriber_id := None |}
        /\ str_contains "already" message = true
        /\ SignupOutcome.stored
             (process_signup sample_signup sample_request sample_draws
                (sample_db [sample_row (Some 1) None]))
           = sample_db [sample_row (Some 1) None]).
Proof.
  split.
  - apply (proj1 (process_signup_responses sample_signup sample_request
                    sample_draws (sample_db []))); intros [].
  - apply (proj2 (process_signup_responses sample_signup sample_request
                    sample_draws (sample_db [sample_row (Some 1) None]))).
    exists "Email already subscribed". vm_compute. reflexivity.
Defined.

Lemma export_subscribers_active_sorted_witness :
  In (sample_row (Some 1) None)
     (export_subscribers (Some "beta")
        (sample_db [sample_row (Some 1) None; sample_row (Some 0) None]))
  /\ ~ In (sample_row (Some 0) None)
          (export_subscribers (Some "beta")
             (sample_db [sample_row (Some 1) None; sample_row (Some 0) None])).
Proof.
  destruct (export_subscribers_active_sorted (Some "beta")
              (sample_db [sample_row (Some 1) None; sample_row (Some 0) None]))
    as (_ & Hin & _).
  split.
  - apply Hin. split; [now left|]. split; [reflexivity|].
    intros c Hc _. now injection Hc as <-.
  - intros H. apply Hin in H. destruct H as (_ & Hactive & _).
    discriminate Hactive.
Defined.

(** With the empty string as campaign the row of campaign beta is
    exported. *)
Example export_empty_campaign_returns_other_campaigns :
  export_subscribers (Some "") (sample_db [sample_row (Some 1) None])
  = [sample_row (Some 1) None].
Proof. reflexivity. Qed.

Lemma analytics_window_witness :
  exists a1 a2,
    get_analytics sample_sql_date 7 (Time.make_datetime 2025 8 1 12 0 0 0)
      (Time.make_datetime 2025 8 1 12 0 0 0)
      (sample_db [sample_row (Some 1) None]) = inr a1
    /\ get_analytics sample_sql_date 30 (Time.make_datetime 2025 8 1 12 0 0 0)
         (Time.make_datetime 2025 8 1 12 0 0 0)
         (sample_db [sample_row (Some 1) None]) = inr a2
    /\ total_count (Analytics.sources a1) <= total_count (Analytics.sources a2).
Proof.
  destruct (analytics_window sample_sql_date 7 30
              (Time.make_datetime 2025 8 1 12 0 0 0)
              (Time.make_datetime 2025 8 1 12 0 0 0)
              (sample_db [sample_row (Some 1) None]))
    as (a1 & a2 & E1 & E2 & _ & _ & _ & _ & Hs & _).
  - reflexivity.
  - reflexivity.
  - lia.
  - exists a1, a2. split; [exact E1|]. split; [exact E2|exact Hs].
Defined.

(** The sample row was created 12 days before the sample clock: the 7-day
    window leaves it out and the 30-day window counts it. *)
Example analytics_window_7_and_30 :
  exists a1 a2,
    get_analytics sample_sql_date 7 (Time.make_datetime 2025 8 1 12 0 0 0)
      (Time.make_datetime 2025 8 1 12 0 0 0)
      (sample_db [sample_row (Some 1) None]) = inr a1
    /\ get_analytics sample_sql_date 30 (Time.make_datetime 2025 8 1 12 0 0 0)
         (Time.make_datetime 2025 8 1 12 0 0 0)
         (sample_db [sample_row (Some 1) None]) = inr a2
    /\ Analytics.sources a1 = []
    /\ Analytics.sources a2 = [("twitter", 1)]
    /\ Analytics.daily_signups a2 = [(Some "2025-07-20", 1)].
Proof.
  eexists _, _. split; [vm_compute; reflexivity|].
  split; [vm_compute; reflexivity|]. repeat split.
Qed.

(** * Further properties *)

(** ** Every outcome of add_subscriber *)

(** The three ways a call of [add_subscriber] can end: a new row and its
    signup event; the rows of the email reactivated and a resubscribe
    event; or an exception, with nothing committed. *)
Lemma add_subscriber_cases signup ip_address d db :
  (~ In (Uuid.str (uuid_subscriber d)) (map Subscriber.id (subscribers db))
   /\ ~ In (NewsletterSignup.email signup)
           (map Subscriber.email (subscribers db))
   /\ ~ In (Uuid.str (uuid_event d)) (map Event.id (events db))
   /\ add_subscriber signup ip_address d db =
      (inr (Uuid.str (uuid_subscriber d)),
       {| subscribers :=
            subscribers db
            ++ [new_subscriber signup ip_address (Uuid.str (uuid_subscriber d))
                  (Uuid.str (uuid_token d)) (Time.isoformat (clock_now d))];
          events :=
            events db
            ++ [logged_event d (Uuid.str (uuid_subscriber d)) "signup"
                  [("source", JStr (NewsletterSignup.source signup));
                   ("campaign", JStr (NewsletterSignup.campaign signup));
                   ("ip", json_of_optional ip_address)]] |}))
  \/ (exists r,
        find (fun x => (Subscriber.email x =? NewsletterSignup.email signup)%string)
             (subscribers db) = Some r
        /\ truthy (Subscriber.unsubscribed_at r) = true
        /\ ~ In (Uuid.str (uuid_event d)) (map Event.id (events db))
        /\ add_subscriber signup ip_address d db =
           (inr (Subscriber.id r),
            {| subscribers :=
                 map (fun x =>
                        if (Subscriber.email x
                            =? NewsletterSignup.email signup)%string
                        then reactivated (Time.isoformat (clock_now d))
                               (NewsletterSignup.source signup)
                               (NewsletterSignup.campaign signup) x
                        else x)
                     (subscribers db);
               events :=
                 events db
                 ++ [logged_event d (Subscriber.id r) "resubscribe"
                       [("source", JStr (NewsletterSignup.source signup));
                        ("campaign",
                         JStr (NewsletterSignup.campaign signup))]] |}))
  \/ (add_subscriber signup ip_address d db
      = (inl (ValueError "Email already subscribed"), db)
      \/ (In (Uuid.str (uuid_event d)) (map Event.id (events db))
          /\ add_subscriber signup ip_address d db
             = (inl (IntegrityError "UNIQUE constraint failed: events.id"),
                db))).
Proof.
  unfold add_subscriber, with_connection, add_subscriber_body,
    try_except_IntegrityError, bind, insert_subscriber, log_event,
    insert_event, select_by_email, update_resubscribe, commit, ret, raise.
  cbn [working committed subscribers events Subscriber.id Subscriber.email
       new_subscriber Event.id].
  destruct (existsb_str (Uuid.str (uuid_event d)) (map Event.id (events db)))
    eqn:Eev;
  destruct (existsb_str (Uuid.str (uuid_subscriber d))
              (map Subscriber.id (subscribers db))) eqn:Eid;
  try destruct (existsb_str (NewsletterSignup.email signup)
                  (map Subscriber.email (subscribers db))) eqn:Eem;
  cbn [working committed subscribers events];
  rewrite ?Eev;
  try match goal with
      | |- context [find ?p ?l] => destruct (find p l) as [r|] eqn:Ef
      end;
  cbn [option_map working committed subscribers events];
  try match goal with
      | |- context [truthy ?u] => destruct (truthy u) eqn:Etr
      end;
  cbn [working committed subscribers events]; rewrite ?Eev;
  cbn [working committed subscribers events];
  try (right; right; left; reflexivity);
  try (right; right; right; split;
       [apply existsb_str_In; exact Eev | reflexivity]).
  all: try (right; left; exists r; repeat split; try assumption;
            intros H; apply existsb_str_In in H; congruence).
  all: left; repeat split;
    intros H; apply existsb_str_In in H; congruence.
Qed.

(** X3: Nothing is committed by a call that raises. *)
Theorem add_subscriber_atomic signup ip_address d db e db' :
  add_subscriber signup ip_address d db = (inl e, db') -> db' = db.
Proof.
  intros H.
  destruct (add_subscriber_cases signup ip_address d db)
    as [(_ & _ & _ & E)|[(r & _ & _ & _ & E)|[E|[_ E]]]];
    rewrite E in H; congruence.
Qed.

Lemma map_reactivated_id now source campaign email l :
  map Subscriber.id
      (map (fun x => if (Subscriber.email x =? email)%string
                     then reactivated now source campaign x else x) l)
  = map Subscriber.id l.
Proof.
  rewrite map_map. apply map_ext. intros x.
  now destruct (Subscriber.email x =? email)%string.
Qed.

Lemma map_reactivated_email now source campaign email l :
  map Subscriber.email
      (map (fun x => if (Subscriber.email x =? email)%string
                     then reactivated now source campaign x else x) l)
  = map Subscriber.email l.
Proof.
  rewrite map_map. apply map_ext. intros x.
  now destruct (Subscriber.email x =? email)%string.
Qed.

Lemma map_reactivated_created_at now source campaign email l :
  map Subscriber.created_at
      (map (fun x => if (Subscriber.email x =? email)%string
                     then reactivated now source campaign x else x) l)
  = map Subscriber.created_at l.
Proof.
  rewrite map_map. apply map_ext. intros x.
  now destruct (Subscriber.email x =? email)%string.
Qed.

Lemma NoDup_snoc {A} (l : list A) x : NoDup l -> ~ In x l -> NoDup (l ++ [x]).
Proof.
  intros Hnd Hx. apply NoDup_app; [exact Hnd | repeat constructor; intros [] |].
  intros y Hy [<-|[]]. contradiction.
Qed.

(** X4: The keys stay unique: whatever the arguments, a database that satisfies
    the PRIMARY KEY and UNIQUE constraints still does after the call. *)
Theorem add_subscriber_keeps_schema signup ip_address d db :
  schema_ok db -> schema_ok (snd (add_subscriber signup ip_address d db)).
Proof.
  intros [Hid Hem Hev].
  destruct (add_subscriber_cases signup ip_address d db)
    as [(Fid & Fem & Fev & E)|[(r & _ & _ & Fev & E)|[E|[_ E]]]];
    rewrite E; cbn [snd]; try (now split).
  - split; cbn [subscribers events]; rewrite map_app; cbn [map];
      now apply NoDup_snoc.
  - split; cbn [subscribers events].
    + now rewrite map_reactivated_id.
    + now rewrite map_reactivated_email.
    + rewrite map_app. cbn [map]. now apply NoDup_snoc.
Qed.

(** X5: Rows and events are only ever added: the stored ids, emails and
    creation times stay where they are, the event log keeps every event,
    and one call adds at most one row and at most one event. *)
Theorem add_subscriber_append_only signup ip_address d db :
  let db' := snd (add_subscriber signup ip_address d db) in
  exists new_rows new_events,
    map Subscriber.id (subscribers db')
    = map Subscriber.id (subscribers db) ++ map Subscriber.id new_rows
    /\ map Subscriber.email (subscribers db')
       = map Subscriber.email (subscribers db) ++ map Subscriber.email new_rows
    /\ map Subscriber.created_at (subscribers db')
       = map Subscriber.created_at (subscribers db)
         ++ map Subscriber.created_at new_rows
    /\ events db' = events db ++ new_events
    /\ (List.length new_rows <= 1)%nat
    /\ (List.length new_rows <= List.length new_events <= 1)%nat.
Proof.
  cbv zeta.
  destruct (add_subscriber_cases signup ip_address d db)
    as [(_ & _ & _ & E)|[(r & _ & _ & _ & E)|[E|[_ E]]]];
    rewrite E; cbn [snd subscribers events].
  - eexists [_], [_]. rewrite !map_app.
    repeat split; try reflexivity; cbn; lia.
  - eexists [], [_].
    rewrite map_reactivated_id, map_reactivated_email,
      map_reactivated_created_at, !app_nil_r.
    repeat split; try reflexivity; cbn; lia.
  - exists [], []. rewrite !app_nil_r. repeat split; try reflexivity; cbn; lia.
  - exists [], []. rewrite !app_nil_r. repeat split; try reflexivity; cbn; lia.
Qed.

(** X1: A first signup: on an email without a row, the generated ids being
    unused, the call returns the new id, appends one row built from the
    signup with the column defaults, and appends one signup event for it. *)
Theorem add_subscriber_creates_row signup ip_address d db :
  ~ In (NewsletterSignup.email signup)
       (map Subscriber.email (subscribers db)) ->
  ~ In (Uuid.str (uuid_subscriber d)) (map Subscriber.id (subscribers db)) ->
  ~ In (Uuid.str (uuid_event d)) (map Event.id (events db)) ->
  exists db' row ev,
    add_subscriber signup ip_address d db
    = (inr (Uuid.str (uuid_subscriber d)), db')
    /\ subscribers db' = subscribers db ++ [row]
    /\ events db' = events db ++ [ev]
    /\ count_where (fun _ => true) db' = count_where (fun _ => true) db + 1
    /\ Subscriber.id row = Uuid.str (uuid_subscriber d)
    /\ Subscriber.email row = NewsletterSignup.email signup
    /\ Subscriber.source row = NewsletterSignup.source signup
    /\ Subscriber.campaign row = NewsletterSignup.campaign signup
    /\ Subscriber.ip_address row = ip_address
    /\ Subscriber.is_active row = Some 1
    /\ Subscriber.is_confirmed row = Some 0
    /\ Subscriber.unsubscribed_at row = None
    /\ Subscriber.created_at row = Time.isoformat (clock_now d)
    /\ Subscriber.updated_at row = Time.isoformat (clock_now d)
    /\ Event.event_type ev = "signup"
    /\ Event.subscriber_id ev = Some (Uuid.str (uuid_subscriber d)).
Proof.
  intros H1 H2 H3.
  rewrite (add_subscriber_fresh signup ip_address d db H1 H2 H3).
  eexists _, _, _. split; [reflexivity|].
  split; [reflexivity|]. split; [reflexivity|].
  split.
  { unfold count_where. cbn [subscribers filter].
    rewrite !filter_true, length_app. cbn. lia. }
  repeat split.
Qed.

Lemma find_email_appended l row e :
  ~ In e (map Subscriber.email l) ->
  Subscriber.email row = e ->
  find (fun x => (Subscriber.email x =? e)%string) (l ++ [row]) = Some row.
Proof.
  intros Hn He. induction l as [|x l IH]; cbn.
  - rewrite He, String.eqb_refl. reflexivity.
  - cbn in Hn.
    destruct (String.eqb_spec (Subscriber.email x) e) as [E|E].
    + exfalso. apply Hn. now left.
    + apply IH. intros H. apply Hn. now right.
Qed.

(** X6: When the generated subscriber id is already a stored id, a signup with
    an email that has no row is refused as already subscribed, and nothing
    is stored: the handler takes any constraint failure for a taken email,
    and [process_signup] answers that the address is already on the list. *)
Theorem subscriber_id_collision_reported_as_duplicate signup request d db :
  In (Uuid.str (uuid_subscriber d)) (map Subscriber.id (subscribers db)) ->
  ~ In (NewsletterSignup.email signup)
       (map Subscriber.email (subscribers db)) ->
  add_subscriber signup (Some (get_client_ip request)) d db
  = (inl (ValueError "Email already subscribed"), db)
  /\ SignupOutcome.response (process_signup signup request d db)
     = inr {| NewsletterResponse.success := true;
              NewsletterResponse.message :=
                "You're already on our list! Thanks for your continued interest.";
              NewsletterResponse.subscriber_id := None |}
  /\ SignupOutcome.stored (process_signup signup request d db) = db
  /\ SignupOutcome.scheduled (process_signup signup request d db) = [].
Proof.
  intros Hid Hem.
  assert (E : add_subscriber signup (Some (get_client_ip request)) d db
              = (inl (ValueError "Email already subscribed"), db)).
  { unfold add_subscriber, with_connection, add_subscriber_body,
      try_except_IntegrityError, bind, insert_subscriber, select_by_email,
      raise.
    cbn [working committed subscribers events Subscriber.id new_subscriber].
    rewrite (proj2 (existsb_str_In _ _) Hid).
    cbn [working committed]. rewrite (find_email_absent _ _ Hem).
    reflexivity. }
  split; [exact E|]. unfold process_signup. rewrite E.
  repeat split.
Qed.

(** X7: When the generated event id is already a stored event id, a first
    signup stores nothing: the row inserted before [log_event] failed is not
    committed, and the error raised is the already-subscribed one. *)
Theorem signup_event_id_collision_rolls_back signup ip_address d db :
  ~ In (NewsletterSignup.email signup)
       (map Subscriber.email (subscribers db)) ->
  ~ In (Uuid.str (uuid_subscriber d)) (map Subscriber.id (subscribers db)) ->
  In (Uuid.str (uuid_event d)) (map Event.id (events db)) ->
  add_subscriber signup ip_address d db
  = (inl (ValueError "Email already subscribed"), db).
Proof.
  intros Hem Hid Hev.
  unfold add_subscriber, with_connection, add_subscriber_body,
    try_except_IntegrityError, bind, insert_subscriber, log_event,
    insert_event, select_by_email, raise.
  cbn [working committed subscribers events Subscriber.id Subscriber.email
       new_subscriber Event.id].
  rewrite (existsb_str_fresh _ _ Hid), (existsb_str_fresh _ _ Hem).
  cbn [working committed subscribers events].
  rewrite (proj2 (existsb_str_In _ _) Hev).
  cbn [working committed subscribers events].
  rewrite (find_email_appended _ _ _ Hem) by reflexivity.
  reflexivity.
Qed.

(** X8: When the generated event id is already a stored event id, a
    reactivation raises [IntegrityError] out of the handler and commits
    nothing; [process_signup] turns it into status 500 with the generic
    message. *)
Theorem reactivation_event_id_collision signup request d db r :
  schema_ok db ->
  In r (subscribers db) ->
  Subscriber.email r = NewsletterSignup.email signup ->
  truthy (Subscriber.unsubscribed_at r) = true ->
  In (Uuid.str (uuid_event d)) (map Event.id (events db)) ->
  add_subscriber signup (Some (get_client_ip request)) d db
  = (inl (IntegrityError "UNIQUE constraint failed: events.id"), db)
  /\ SignupOutcome.response (process_signup signup request d db)
     = inl (HTTPException 500 "Signup failed. Please try again.")
  /\ SignupOutcome.stored (process_signup signup request d db) = db.
Proof.
  intros Hok Hin Hemail Htr Hev.
  assert (E : add_subscriber signup (Some (get_client_ip request)) d db
              = (inl (IntegrityError "UNIQUE constraint failed: events.id"),
                 db)).
  { rewrite (add_subscriber_existing signup _ d db r
               (emails_unique db Hok) Hin Hemail).
    now rewrite Htr, (proj2 (existsb_str_In _ _) Hev). }
  split; [exact E|]. unfold process_signup. rewrite E. split; reflexivity.
Qed.

(** X9: The answers of [process_signup]: a success with the id
    [add_subscriber] returned, the already-on-the-list answer, or status
    500 with the generic message. It never answers 400 and never passes the
    text of an exception on; unless it succeeds the database is untouched;
    and it schedules one welcome email, with the returned id as token,
    exactly when it succeeds. *)
Theorem process_signup_outcomes signup request d db :
  let out := process_signup signup request d db in
  (exists subscriber_id,
     add_subscriber signup (Some (get_client_ip request)) d db
     = (inr subscriber_id, SignupOutcome.stored out)
     /\ SignupOutcome.response out
        = inr {| NewsletterResponse.success := true;
                 NewsletterResponse.message :=
                   "🎉 You're on the list! Check your email for exclusive updates.";
                 NewsletterResponse.subscriber_id := Some subscriber_id |}
     /\ SignupOutcome.scheduled out
        = [(NewsletterSignup.email signup, NewsletterSignup.name signup,
            subscriber_id)])
  \/ (SignupOutcome.response out
      = inr {| NewsletterResponse.success := true;
               NewsletterResponse.message :=
                 "You're already on our list! Thanks for your continued interest.";
               NewsletterResponse.subscriber_id := None |}
      /\ SignupOutcome.stored out = db
      /\ SignupOutcome.scheduled out = [])
  \/ (SignupOutcome.response out
      = inl (HTTPException 500 "Signup failed. Please try again.")
      /\ SignupOutcome.stored out = db
      /\ SignupOutcome.scheduled out = []).
Proof.
  cbv zeta. unfold process_signup.
  destruct (add_subscriber_cases signup (Some (get_client_ip request)) d db)
    as [(_ & _ & _ & E)|[(r & _ & _ & _ & E)|[E|[_ E]]]]; rewrite E.
  - left. eexists. repeat split.
  - left. eexists. repeat split.
  - right. left. repeat split.
  - right. right. repeat split.
Qed.

(** ** More on the launch countdown *)


(** ** get_client_ip *)

Lemma prefix_comma_cons c s :
  String.prefix "," (String c s) = Ascii.eqb c ",".
Proof.
  cbn [String.prefix]. destruct (ascii_dec "," c) as [<-|Hne].
  - now destruct s.
  - symmetry. apply Ascii.eqb_neq. congruence.
Qed.

(** [s.split(",")[0]] is the part of [s] before its first comma. *)
Lemma before_comma_spec s :
  exists rest,
    s = (before_comma s ++ rest)%string
    /\ (rest = "" \/ exists t, rest = String "," t)
    /\ str_contains "," (before_comma s) = false.
Proof.
  induction s as [|c s (rest & E & Hrest & Hno)].
  - exists "". repeat split. now left.
  - cbn [before_comma]. destruct (Ascii.eqb_spec c ",") as [->|Hne].
    + exists (String "," s). repeat split. right. now exists s.
    + exists rest. split; [cbn; now rewrite <- E|]. split; [exact Hrest|].
      cbn [str_contains]. rewrite prefix_comma_cons, Hno.
      apply orb_false_iff. split; [|reflexivity].
      now apply Ascii.eqb_neq.
Qed.

(** X11: The address recorded for a request: with a non-empty X-Forwarded-For
    header, the text of the header before its first comma (all of it when it
    has none), whatever the peer address; without one, the peer's host, or
    the word unknown when the request has no peer. *)
Theorem get_client_ip_spec request :
  (forall forwarded,
     Request.x_forwarded_for request = Some forwarded ->
     forwarded <> "" ->
     exists rest,
       forwarded = (get_client_ip request ++ rest)%string
       /\ (rest = "" \/ exists t, rest = String "," t)
       /\ str_contains "," (get_client_ip request) = false)
  /\ (truthy (Request.x_forwarded_for request) = false ->
      get_client_ip request
      = match Request.client_host request with
        | Some host => host
        | None => "unknown"
        end).
Proof.
  unfold get_client_ip. split.
  - intros forwarded -> Hne. rewrite truthy_some by exact Hne.
    apply before_comma_spec.
  - destruct (Request.x_forwarded_for request) as [f|]; [|reflexivity].
    now intros ->.
Qed.

(** ** The shape of the aggregates *)




Section GroupShape.

Context {K : Type} (eq_dec : forall a b : K, {a = b} + {a <> b}).



Lemma length_nodup_le (l : list K) :
  (List.length (nodup eq_dec l) <= List.length l)%nat.
Proof.
  apply NoDup_incl_length; [apply NoDup_nodup|].
  intros x Hx. now apply nodup_In in Hx.
Qed.


End GroupShape.

Section Shape.

Variable sql_date : string -> option string.


End Shape.

(** ** Totals and the public statistics *)

Lemma length_filter_le {A} (p : A -> bool) l :
  (List.length (filter p l) <= List.length l)%nat.
Proof.
  induction l as [|x l IH]; cbn; [lia|]. destruct (p x); cbn; lia.
Qed.

Section Totals.

Variable sql_date : string -> option string.

(** X14: [public_stats] answers whenever the clock is at least 30 days after
    the first representable day. Its [growth_trend] is the number of
    distinct dates among the rows of the last 30 days, so it never exceeds
    [total_subscribers], and neither do the active and confirmed counts of
    the full analytics. *)
Theorem public_stats_bounds now0 now1 db :
  Time.in_range (now0 - 30 * Time.US_PER_DAY) = true ->
  exists a p,
    get_analytics sql_date 30 now0 now1 db = inr a
    /\ public_stats sql_date now0 now1 db = inr p
    /\ PublicStats.total_subscribers p
       = Z.of_nat (List.length (subscribers db))
    /\ PublicStats.launch_countdown p = Analytics.launch_countdown a
    /\ PublicStats.growth_trend p
       = Z.of_nat
           (List.length
              (nodup option_string_dec
                 (map (fun r => sql_date (Subscriber.created_at r))
                    (created_since
                       (Time.isoformat (now0 - 30 * Time.US_PER_DAY)) db))))
    /\ 0 <= PublicStats.growth_trend p <= PublicStats.total_subscribers p
    /\ 0 <= Analytics.active_subscribers a <= Analytics.total_subscribers a
    /\ 0 <= Analytics.confirmed_subscribers a
       <= Analytics.total_subscribers a.
Proof.
  intros Hrange. unfold public_stats, get_analytics, Time.sub_days.
  rewrite Hrange. eexists _, _. split; [reflexivity|].
  split; [reflexivity|].
  cbn [PublicStats.total_subscribers PublicStats.launch_countdown
       PublicStats.growth_trend Analytics.total_subscribers
       Analytics.active_subscribers Analytics.confirmed_subscribers
       Analytics.launch_countdown Analytics.daily_signups].
  unfold count_where. rewrite filter_true.
  match goal with
  | |- context [order_by_desc ?ge ?g] =>
      rewrite (Permutation_length (order_by_desc_perm ge g))
  end.
  unfold group_count. rewrite length_map.
  match goal with
  | |- context [nodup ?dec ?l] =>
      pose proof (length_nodup_le dec l) as Hn; rewrite length_map in Hn;
      set (n := List.length (nodup dec l)) in *
  end.
  pose proof (length_filter_le
                (fun r => (Time.isoformat (now0 - 30 * Time.US_PER_DAY)
                           <=? Subscriber.created_at r)%string)
                (subscribers db)) as Hw.
  pose proof (length_filter_le
                (fun r => sql_is_1 (Subscriber.is_active r))
                (subscribers db)) as Ha.
  pose proof (length_filter_le
                (fun r => sql_is_1 (Subscriber.is_confirmed r))
                (subscribers db)) as Hc.
  unfold created_since in Hn.
  repeat split; try reflexivity; lia.
Qed.

(** X15: [get_analytics] raises [OverflowError] when the window reaches before
    the first representable day, as it does for every clock once [days] is
    3652059 or more; with [days] between 0 and 365 and a clock at least 365
    days after that first day it returns. *)
Theorem get_analytics_overflow days now0 now1 db :
  Time.in_range now0 = true ->
  (Time.MAX_ORDINAL <= days ->
   exists msg,
     get_analytics sql_date days now0 now1 db = inl (OverflowError msg))
  /\ (0 <= days <= 365 -> 365 * Time.US_PER_DAY <= now0 ->
      exists a, get_analytics sql_date days now0 now1 db = inr a).
Proof.
  unfold Time.in_range. rewrite andb_true_iff, Z.leb_le, Z.ltb_lt.
  intros [H0 H1]. unfold get_analytics, Time.sub_days, Time.in_range.
  unfold Time.MAX_ORDINAL, Time.US_PER_DAY in *.
  split.
  - intros Hd.
    replace (0 <=? now0 - days * (86400 * 1000000)) with false
      by (symmetry; apply Z.leb_gt; lia).
    cbn. eauto.
  - intros Hd Hn.
    replace (0 <=? now0 - days * (86400 * 1000000)) with true
      by (symmetry; apply Z.leb_le; lia).
    replace (now0 - days * (86400 * 1000000) <? 3652059 * (86400 * 1000000))
      with true by (symmetry; apply Z.ltb_lt; lia).
    cbn [andb]. eauto.
Qed.

End Totals.

(** ** Signup, then export *)

(** X16: After a first signup the export has exactly one more row, the new one,
    when it is asked for every campaign or for the signup's campaign, and
    is unchanged when asked for another campaign. *)
Theorem export_after_signup signup ip_address d db campaign :
  ~ In (NewsletterSignup.email signup)
       (map Subscriber.email (subscribers db)) ->
  ~ In (Uuid.str (uuid_subscriber d)) (map Subscriber.id (subscribers db)) ->
  ~ In (Uuid.str (uuid_event d)) (map Event.id (events db)) ->
  let db' := snd (add_subscriber signup ip_address d db) in
  let row := new_subscriber signup ip_address (Uuid.str (uuid_subscriber d))
               (Uuid.str (uuid_token d)) (Time.isoformat (clock_now d)) in
  (truthy campaign = false \/ campaign = Some (NewsletterSignup.campaign signup)
   -> Permutation (export_subscribers campaign db')
                  (row :: export_subscribers campaign db))
  /\ (forall c, campaign = Some c -> c <> "" ->
                c <> NewsletterSignup.campaign signup ->
      Permutation (export_subscribers campaign db')
                  (export_subscribers campaign db)).
Proof.
  intros H1 H2 H3. cbv zeta.
  rewrite (add_subscriber_fresh signup ip_address d db H1 H2 H3).
  cbn [snd].
  set (row := new_subscriber _ _ _ _ _).
  assert (P : Permutation
                (export_subscribers campaign
                   {| subscribers := subscribers db ++ [row];
                      events := events db
                        ++ [logged_event d (Uuid.str (uuid_subscriber d))
                              "signup"
                              [("source", JStr (NewsletterSignup.source signup));
                               ("campaign",
                                JStr (NewsletterSignup.campaign signup));
                               ("ip", json_of_optional ip_address)]] |})
                ((if exported campaign row then [row] else [])
                 ++ export_subscribers campaign db)).
  { rewrite !export_subscribers_perm. cbn [subscribers].
    rewrite filter_app. cbn [filter]. apply Permutation_app_comm. }
  split.
  - intros Hc. rewrite P.
    replace (exported campaign row) with true; [reflexivity|].
    unfold exported. cbn [row new_subscriber Subscriber.is_active
                          Subscriber.campaign sql_is_1].
    destruct Hc as [Hc| ->].
    + destruct campaign as [c|]; [|reflexivity]. cbn in Hc.
      destruct (c =? "")%string; [reflexivity|discriminate].
    + now rewrite String.eqb_refl, orb_true_r.
  - intros c -> Hne Hother. rewrite P.
    replace (exported (Some c) row) with false; [reflexivity|].
    unfold exported. cbn [row new_subscriber Subscriber.is_active
                          Subscriber.campaign sql_is_1].
    destruct (String.eqb_spec c "") as [E|_]; [contradiction|].
    destruct (String.eqb_spec (NewsletterSignup.campaign signup) c) as [E|_];
      [congruence|reflexivity].
Qed.

Lemma email_determines_row l x y :
  NoDup (map Subscriber.email l) -> In x l -> In y l ->
  Subscriber.email x = Subscriber.email y -> x = y.
Proof.
  induction l as [|z l IH]; intros Hnd Hx Hy He; [contradiction|].
  cbn in Hnd. inversion Hnd as [|? ? Hz Hnd']; subst.
  destruct Hx as [->|Hx], Hy as [->|Hy]; try reflexivity.
  - exfalso. apply Hz. rewrite He. now apply in_map.
  - exfalso. apply Hz. rewrite <- He. now apply in_map.
  - now apply IH.
Qed.

(** X17: After a reactivation the row is exported again, under the campaign of
    the new signup and under no other campaign. *)
Theorem export_after_reactivation signup ip_address d db r :
  schema_ok db ->
  In r (subscribers db) ->
  Subscriber.email r = NewsletterSignup.email signup ->
  truthy (Subscriber.unsubscribed_at r) = true ->
  ~ In (Uuid.str (uuid_event d)) (map Event.id (events db)) ->
  let db' := snd (add_subscriber signup ip_address d db) in
  let r' := reactivated (Time.isoformat (clock_now d))
              (NewsletterSignup.source signup)
              (NewsletterSignup.campaign signup) r in
  In r' (export_subscribers None db')
  /\ In r' (export_subscribers (Some (NewsletterSignup.campaign signup)) db')
  /\ (forall c x,
        c <> "" -> c <> NewsletterSignup.campaign signup ->
        In x (export_subscribers (Some c) db') ->
        Subscriber.email x <> NewsletterSignup.email signup).
Proof.
  intros Hok Hin Hemail Htr Hev. cbv zeta.
  destruct (add_subscriber_reactivation signup ip_address d db r
              Hok Hin Hemail Htr Hev) as (l1 & l2 & E1 & E2).
  rewrite E2. cbn [snd].
  set (r' := reactivated _ _ _ r).
  set (db' := {| subscribers := l1 ++ r' :: l2; events := _ |}).
  assert (Hr' : In r' (subscribers db'))
    by (cbn; apply in_or_app; right; now left).
  assert (Hmem : forall c x,
             In x (export_subscribers c db') <->
             In x (subscribers db') /\ exported c x = true).
  { intros c x. rewrite <- filter_In.
    split; apply Permutation_in; [|symmetry]; apply export_subscribers_perm. }
  split; [|split].
  - apply Hmem. split; [exact Hr'|reflexivity].
  - apply Hmem. split; [exact Hr'|]. unfold exported.
    cbn [r' reactivated Subscriber.is_active Subscriber.campaign sql_is_1].
    now rewrite String.eqb_refl, orb_true_r.
  - intros c x Hne Hother Hx Hxe.
    apply Hmem in Hx. destruct Hx as [Hxin Hsel].
    assert (Hnd : NoDup (map Subscriber.email (subscribers db'))).
    { cbn [db' subscribers]. rewrite map_app. cbn [map].
      change (Subscriber.email r') with (Subscriber.email r).
      change (map Subscriber.email l1 ++ Subscriber.email r
                :: map Subscriber.email l2)
        with (map Subscriber.email l1 ++ map Subscriber.email (r :: l2)).
      rewrite <- map_app, <- E1. apply (emails_unique db Hok). }
    assert (x = r').
    { apply (email_determines_row (subscribers db')); try assumption.
      rewrite Hxe. symmetry. exact Hemail. }
    subst x. unfold exported in Hsel.
    cbn [r' reactivated Subscriber.is_active Subscriber.campaign sql_is_1]
      in Hsel.
    destruct (String.eqb_spec c "") as [E|_]; [contradiction|].
    destruct (String.eqb_spec (NewsletterSignup.campaign signup) c) as [E|_];
      [congruence|discriminate].
Qed.



(** ** init_database *)

(** X19: Starting the service again is harmless: [init_database] leaves the
    subscribers and events alone, keeps every stored campaign as it is,
    adds the default campaign only if its id is missing, keeps campaign ids
    unique, and a second run, at any later time, changes nothing. *)
Theorem init_database_idempotent now now' s :
  let s' := init_database now s in
  tables s' = tables s
  /\ (exists added,
        campaigns s' = campaigns s ++ added /\ (List.length added <= 1)%nat)
  /\ In "early_access_2025" (map Campaign.id (campaigns s'))
  /\ (NoDup (map Campaign.id (campaigns s)) ->
      NoDup (map Campaign.id (campaigns s')))
  /\ init_database now' s' = s'.
Proof.
  cbv zeta. unfold init_database, insert_or_ignore_campaign.
  cbn [tables campaigns default_campaign Campaign.id].
  destruct (existsb_str "early_access_2025" (map Campaign.id (campaigns s)))
    eqn:E.
  - rewrite E. split; [reflexivity|].
    split; [exists []; rewrite app_nil_r; split; [reflexivity|cbn; lia]|].
    split; [now apply existsb_str_In|]. split; [tauto|reflexivity].
  - split; [reflexivity|].
    split; [eexists [_]; split; [reflexivity|cbn; lia]|].
    assert (Hin : In "early_access_2025"
                     (map Campaign.id
                        (campaigns s
                         ++ [default_campaign (Time.isoformat now)])))
      by (rewrite map_app; apply in_or_app; right; now left).
    split; [exact Hin|].
    split.
    + intros Hnd. rewrite map_app. cbn [map]. apply NoDup_snoc; [exact Hnd|].
      intros H. apply existsb_str_In in H.
      cbn [default_campaign Campaign.id] in H. congruence.
    + now rewrite (proj2 (existsb_str_In _ _) Hin).
Qed.

(** ** The compatibility script *)

Lemma count_available_bounds find_spec packages : forall available,
  available <= Compat.count_available find_spec packages available
  <= available + Z.of_nat (List.length packages).
Proof.
  induction packages as [|[package description] rest IH]; intros available;
    cbn [Compat.count_available List.length]; [lia|].
  destruct (find_spec package);
    match goal with |- _ <= Compat.count_available _ _ ?a <= _ =>
      specialize (IH a) end; lia.
Qed.

Lemma count_available_all find_spec packages : forall available,
  Compat.count_available find_spec packages available
  = available + Z.of_nat (List.length packages)
  <-> (forall package, In package (map fst packages) ->
                       find_spec package = Compat.Found).
Proof.
  induction packages as [|[package description] rest IH]; intros available;
    cbn [Compat.count_available List.length map fst In].
  - split; [intros _ p []|lia].
  - pose proof (count_available_bounds find_spec rest available) as B0.
    pose proof (count_available_bounds find_spec rest (available + 1)) as B1.
    destruct (find_spec package) eqn:E.
    + rewrite Nat2Z.inj_succ.
      replace (available + Z.succ (Z.of_nat (List.length rest)))
        with (available + 1 + Z.of_nat (List.length rest)) by lia.
      rewrite IH. split.
      * intros H p [<-|Hp]; [exact E|now apply H].
      * intros H p Hp. apply H. now right.
    + split; [lia|]. intros H. specialize (H package (or_introl eq_refl)).
      congruence.
    + split; [lia|]. intros H. specialize (H package (or_introl eq_refl)).
      congruence.
Qed.

Lemma check_package_availability_iff_aux find_spec :
  Compat.check_package_availability find_spec = true <->
  (forall package,
     In package (map fst Compat.required_packages) ->
     find_spec package = Compat.Found).
Proof.
  unfold Compat.check_package_availability. cbv zeta.
  rewrite Z.eqb_eq.
  apply (count_available_all find_spec Compat.required_packages 0).
Qed.

(** X20: The package check passes exactly when [find_spec] finds every one of
    the fourteen required packages, a package whose lookup raises counting
    as missing; the optional packages have no say. *)
Theorem check_package_availability_iff find_spec :
  Compat.check_package_availability find_spec = true <->
  (forall package,
     In package (map fst Compat.required_packages) ->
     find_spec package = Compat.Found).
Proof. apply check_package_availability_iff_aux. Qed.

Lemma run_test_true outcome :
  Compat.run_test outcome = true <-> outcome = Some true.
Proof.
  destruct outcome as [[|]|]; cbn; split; congruence.
Qed.

Lemma generate_compatibility_report_iff env :
  Compat.generate_compatibility_report env = true <->
  Compat.check_python_version (Compat.version env) = true
  /\ Compat.check_package_availability (Compat.find_spec env) = true
  /\ Compat.test_fastapi_compatibility env = Some true
  /\ Compat.test_database_operations env = Some true
  /\ Compat.test_email_functionality env = Some true
  /\ Compat.test_async_functionality env = Some true.
Proof.
  unfold Compat.generate_compatibility_report. cbv zeta.
  rewrite <- !run_test_true.
  cbn [Compat.run_test fold_left snd List.length].
  destruct (Compat.check_python_version (Compat.version env)),
    (Compat.check_package_availability (Compat.find_spec env)),
    (Compat.run_test (Compat.test_fastapi_compatibility env)),
    (Compat.run_test (Compat.test_database_operations env)),
    (Compat.run_test (Compat.test_email_functionality env)),
    (Compat.run_test (Compat.test_async_functionality env));
    cbn; split; intros H; try discriminate; try tauto;
    repeat match goal with H : _ /\ _ |- _ => destruct H end; discriminate.
Qed.

(** X21: The exit code of the script is 0 or 1. With [--quick] as first argument
    it is 0 exactly when the interpreter is some Python 3, whatever its
    minor version, and every required package is found; otherwise the four
    self-tests must also return true, a test that raises counting as
    failed. So a machine that passes the full report passes the quick
    check. *)
Theorem compat_main_exit_code argv env :
  let quick :=
    Compat.major (Compat.version env) = 3
    /\ (forall package,
          In package (map fst Compat.required_packages) ->
          Compat.find_spec env package = Compat.Found) in
  let full :=
    quick
    /\ Compat.test_fastapi_compatibility env = Some true
    /\ Compat.test_database_operations env = Some true
    /\ Compat.test_email_functionality env = Some true
    /\ Compat.test_async_functionality env = Some true in
  (Compat.main argv env = 0 \/ Compat.main argv env = 1)
  /\ (forall arg0 rest,
        Compat.main (arg0 :: "--quick" :: rest) env = 0 <-> quick)
  /\ ((forall arg0 rest, argv <> arg0 :: "--quick" :: rest) ->
      (Compat.main argv env = 0 <-> full))
  /\ (Compat.main [] env = 0 ->
      forall arg0 rest, Compat.main (arg0 :: "--quick" :: rest) env = 0).
Proof.
  cbv zeta.
  assert (Hv : Compat.check_python_version (Compat.version env) = true
               <-> Compat.major (Compat.version env) = 3).
  { unfold Compat.check_python_version.
    destruct (Z.eqb_spec (Compat.major (Compat.version env)) 3);
      cbn; split; congruence. }
  assert (Hquick : forall arg0 rest,
             Compat.main (arg0 :: "--quick" :: rest) env = 0 <->
             Compat.major (Compat.version env) = 3
             /\ (forall package,
                   In package (map fst Compat.required_packages) ->
                   Compat.find_spec env package = Compat.Found)).
  { intros arg0 rest. unfold Compat.main. rewrite String.eqb_refl.
    rewrite <- Hv, <- check_package_availability_iff_aux.
    destruct (Compat.check_python_version (Compat.version env)),
      (Compat.check_package_availability (Compat.find_spec env));
      cbn; split; intros H; try discriminate; try tauto;
      destruct H; discriminate. }
  assert (Hfull : Compat.generate_compatibility_report env = true <->
                  (Compat.major (Compat.version env) = 3
                   /\ (forall package,
                         In package (map fst Compat.required_packages) ->
                         Compat.find_spec env package = Compat.Found))
                  /\ Compat.test_fastapi_compatibility env = Some true
                  /\ Compat.test_database_operations env = Some true
                  /\ Compat.test_email_functionality env = Some true
                  /\ Compat.test_async_functionality env = Some true).
  { rewrite generate_compatibility_report_iff, Hv,
      check_package_availability_iff_aux. tauto. }
  split; [|split; [|split]].
  - unfold Compat.main.
    match goal with |- context [if ?b then 0 else 1] => destruct b end; auto.
  - exact Hquick.
  - intros Hnot. rewrite <- Hfull. unfold Compat.main.
    destruct argv as [|arg0 [|arg1 rest]];
      try (destruct (Compat.generate_compatibility_report env);
           split; congruence).
    destruct (String.eqb_spec arg1 "--quick") as [->|_].
    + exfalso. now apply (Hnot arg0 rest).
    + destruct (Compat.generate_compatibility_report env); split; congruence.
  - intros H0 arg0 rest. apply Hquick.
    assert (Hg : Compat.generate_compatibility_report env = true).
    { unfold Compat.main in H0.
      destruct (Compat.generate_compatibility_report env);
        [reflexivity|discriminate]. }
    apply Hfull in Hg. tauto.
Qed.

(** X2: A successful call leaves the signup's email subscribed: the returned id
    is the id of a stored row with that email, [is_active = 1], no
    [unsubscribed_at], the signup's source and campaign, and [updated_at]
    set to the time of the call. *)
Theorem add_subscriber_success_means_active signup ip_address d db id db' :
  add_subscriber signup ip_address d db = (inr id, db') ->
  exists row,
    In row (subscribers db')
    /\ Subscriber.id row = id
    /\ Subscriber.email row = NewsletterSignup.email signup
    /\ Subscriber.is_active row = Some 1
    /\ Subscriber.unsubscribed_at row = None
    /\ Subscriber.source row = NewsletterSignup.source signup
    /\ Subscriber.campaign row = NewsletterSignup.campaign signup
    /\ Subscriber.updated_at row = Time.isoformat (clock_now d).
Proof.
  intros H.
  destruct (add_subscriber_cases signup ip_address d db)
    as [(_ & _ & _ & E)|[(r & Hf & _ & _ & E)|[E|[_ E]]]];
    rewrite E in H; try discriminate; injection H as <- <-.
  - eexists. split; [cbn; apply in_or_app; right; now left|]. repeat split.
  - apply find_some in Hf. destruct Hf as [Hin He].
    apply String.eqb_eq in He.
    exists (reactivated (Time.isoformat (clock_now d))
              (NewsletterSignup.source signup)
              (NewsletterSignup.campaign signup) r).
    split.
    + cbn [subscribers]. apply in_map_iff. exists r.
      split; [|exact Hin]. rewrite He, String.eqb_refl. reflexivity.
    + repeat split. exact He.
Qed.

(** ** The further properties on sample data *)

Lemma add_subscriber_atomic_witness :
  sample_db [sample_row (Some 1) None] = sample_db [sample_row (Some 1) None].
Proof.
  apply (add_subscriber_atomic sample_signup None sample_draws
           (sample_db [sample_row (Some 1) None])
           (ValueError "Email already subscribed")
           (sample_db [sample_row (Some 1) None])).
  vm_compute. reflexivity.
Defined.

Lemma add_subscriber_keeps_schema_witness :
  schema_ok
    (snd (add_subscriber sample_signup None sample_draws
            (sample_db [sample_other_row]))).
Proof.
  apply (add_subscriber_keeps_schema sample_signup None sample_draws
           (sample_db [sample_other_row])).
  apply sample_db_schema_ok.
Defined.

Lemma add_subscriber_creates_row_witness :
  exists db',
    add_subscriber sample_signup (Some "203.0.113.9") sample_draws
      (sample_db [])
    = (inr "00000000-0000-0000-0000-000000000001", db')
    /\ count_where (fun _ => true) db' = 1.
Proof.
  destruct (add_subscriber_creates_row sample_signup (Some "203.0.113.9")
              sample_draws (sample_db []))
    as (db' & row & ev & E & _ & _ & Hc & _); try (intros []).
  exists db'. split; [exact E|exact Hc].
Defined.

Lemma add_subscriber_success_means_active_witness :
  exists row,
    In row (subscribers
              (snd (add_subscriber sample_signup None sample_draws
                      (sample_db []))))
    /\ Subscriber.id row = "00000000-0000-0000-0000-000000000001"
    /\ Subscriber.is_active row = Some 1.
Proof.
  destruct (add_subscriber_success_means_active sample_signup None
              sample_draws (sample_db [])
              "00000000-0000-0000-0000-000000000001"
              (snd (add_subscriber sample_signup None sample_draws
                      (sample_db []))))
    as (row & Hin & Hid & _ & Hactive & _).
  - vm_compute. reflexivity.
  - exists row. split; [exact Hin|]. split; [exact Hid|exact Hactive].
Defined.

Lemma subscriber_id_collision_reported_as_duplicate_witness :
  add_subscriber sample_signup (Some (get_client_ip sample_request))
    sample_draws (sample_db [sample_other_row])
  = (inl (ValueError "Email already subscribed"),
     sample_db [sample_other_row]).
Proof.
  apply (subscriber_id_collision_reported_as_duplicate sample_signup
           sample_request sample_draws (sample_db [sample_other_row])).
  - left. reflexivity.
  - intros [H|[]]. discriminate H.
Defined.

Lemma signup_event_id_collision_rolls_back_witness :
  add_subscriber sample_signup None sample_draws
    {| subscribers := []; events := [sample_event] |}
  = (inl (ValueError "Email already subscribed"),
     {| subscribers := []; events := [sample_event] |}).
Proof.
  apply (signup_event_id_collision_rolls_back sample_signup None sample_draws
           {| subscribers := []; events := [sample_event] |}).
  - intros [].
  - intros [].
  - left. reflexivity.
Defined.

Lemma reactivation_event_id_collision_witness :
  SignupOutcome.response
    (process_signup sample_signup sample_request sample_draws
       {| subscribers :=
            [sample_row (Some 0) (Some "2025-07-25T09:00:00+00:00")];
          events := [sample_event] |})
  = inl (HTTPException 500 "Signup failed. Please try again.").
Proof.
  apply (reactivation_event_id_collision sample_signup sample_request
           sample_draws
           {| subscribers :=
                [sample_row (Some 0) (Some "2025-07-25T09:00:00+00:00")];
              events := [sample_event] |}
           (sample_row (Some 0) (Some "2025-07-25T09:00:00+00:00"))).
  - split; cbn; repeat constructor; intros [].
  - now left.
  - reflexivity.
  - reflexivity.
  - left. reflexivity.
Defined.

Lemma process_signup_twice_witness :
  SignupOutcome.response
    (process_signup sample_signup sample_request sample_draws
       (SignupOutcome.stored
          (process_signup sample_signup sample_request sample_draws
             (sample_db []))))
  = inr {| NewsletterResponse.success := true;
           NewsletterResponse.message :=
             "You're already on our list! Thanks for your continued interest.";
           NewsletterResponse.subscriber_id := None |}.
Proof.
  apply (process_signup_twice sample_signup sample_request sample_draws
           sample_request sample_draws (sample_db [])).
  - split; cbn; constructor.
  - intros [].
  - intros [].
  - intros [].
Defined.


Lemma get_client_ip_spec_witness :
  exists rest,
    "203.0.113.9, 10.0.0.1" = (get_client_ip sample_request ++ rest)%string
    /\ str_contains "," (get_client_ip sample_request) = false.
Proof.
  destruct (proj1 (get_client_ip_spec sample_request)
              "203.0.113.9, 10.0.0.1" eq_refl)
    as (rest & E & _ & Hno).
  - discriminate.
  - exists rest. split; [exact E|exact Hno].
Defined.


Lemma public_stats_bounds_witness :
  exists p,
    public_stats sample_sql_date (Time.make_datetime 2025 8 1 12 0 0 0)
      (Time.make_datetime 2025 8 1 12 0 0 0)
      (sample_db [sample_row (Some 1) None; sample_other_row]) = inr p
    /\ 0 <= PublicStats.growth_trend p <= PublicStats.total_subscribers p.
Proof.
  destruct (public_stats_bounds sample_sql_date
              (Time.make_datetime 2025 8 1 12 0 0 0)
              (Time.make_datetime 2025 8 1 12 0 0 0)
              (sample_db [sample_row (Some 1) None; sample_other_row]))
    as (a & p & _ & E & _ & _ & _ & Hg & _).
  - reflexivity.
  - exists p. split; [exact E|exact Hg].
Defined.

Lemma get_analytics_overflow_witness :
  exists msg,
    get_analytics sample_sql_date 4000000
      (Time.make_datetime 2025 8 1 12 0 0 0)
      (Time.make_datetime 2025 8 1 12 0 0 0) (sample_db [])
    = inl (OverflowError msg).
Proof.
  apply (proj1 (get_analytics_overflow sample_sql_date 4000000
                  (Time.make_datetime 2025 8 1 12 0 0 0)
                  (Time.make_datetime 2025 8 1 12 0 0 0) (sample_db [])
                  eq_refl)).
  unfold Time.MAX_ORDINAL. lia.
Defined.

Lemma export_after_signup_witness :
  Permutation
    (export_subscribers None
       (snd (add_subscriber sample_signup None sample_draws (sample_db []))))
    (new_subscriber sample_signup None
       (Uuid.str (uuid_subscriber sample_draws))
       (Uuid.str (uuid_token sample_draws))
       (Time.isoformat (clock_now sample_draws))
     :: export_subscribers None (sample_db [])).
Proof.
  apply (proj1 (export_after_signup sample_signup None sample_draws
                  (sample_db []) None
                  (fun H => H) (fun H => H) (fun H => H))).
  now left.
Defined.

Lemma export_after_reactivation_witness :
  In (reactivated (Time.isoformat (clock_now sample_draws))
        "landing_page" "early_access_2025"
        (sample_row (Some 0) (Some "2025-07-25T09:00:00+00:00")))
     (export_subscribers (Some "early_access_2025")
        (snd (add_subscriber sample_signup None sample_draws
                (sample_db [sample_row (Some 0)
                              (Some "2025-07-25T09:00:00+00:00")])))).
Proof.
  destruct (export_after_reactivation sample_signup None sample_draws
              (sample_db [sample_row (Some 0)
                            (Some "2025-07-25T09:00:00+00:00")])
              (sample_row (Some 0) (Some "2025-07-25T09:00:00+00:00")))
    as (_ & Hexported & _).
  - apply sample_db_schema_ok.
  - now left.
  - reflexivity.
  - reflexivity.
  - intros [].
  - exact Hexported.
Defined.


Lemma init_database_idempotent_witness :
  init_database (Time.make_datetime 2025 8 2 0 0 0 0)
    (init_database (Time.make_datetime 2025 8 1 0 0 0 0)
       {| tables := sample_db []; campaigns := [] |})
  = init_database (Time.make_datetime 2025 8 1 0 0 0 0)
      {| tables := sample_db []; campaigns := [] |}.
Proof.
  apply (init_database_idempotent (Time.make_datetime 2025 8 1 0 0 0 0)
           (Time.make_datetime 2025 8 2 0 0 0 0)
           {| tables := sample_db []; campaigns := [] |}).
Defined.

Lemma compat_main_exit_code_witness :
  Compat.main ["check.py"; "--quick"]
    (sample_environment (fun _ => Compat.Found)) = 0
  /\ Compat.main ["check.py"]
       (sample_environment (fun _ => Compat.Found)) = 1.
Proof.
  destruct (compat_main_exit_code ["check.py"]
              (sample_environment (fun _ => Compat.Found)))
    as (H01 & Hquick & Hfull & _).
  split.
  - apply Hquick. split; [reflexivity|]. intros package _. reflexivity.
  - destruct H01 as [H0|H1]; [|exact H1].
    apply Hfull in H0.
    + destruct H0 as (_ & _ & Hdb & _). discriminate Hdb.
    + intros arg0 rest Hargv. discriminate Hargv.
Defined.
